(** * xenminer [ethapi]: the Ethereum-style read facade over the block ledger

    A shallow embedding of [src/ethapi/eth.py] (class [EthApi] on the shared
    base) and of its early draft [src/ethapi/api.py], together with the
    properties of identifier resolution, block lookup and balance
    aggregation.

    Layout:
    - [Py]  : the Python values, exceptions and library calls the code uses
              ([str.replace], [int(s, 16)], [hex], [eth_utils.is_hex],
              [bytes.fromhex], [HexBytes]);
    - [Sql] : the two tables and the five [SELECT] statements, with the
              engine's 64-bit integers (rowids, overflow of a product into
              REAL, failure of an overflowing integer sum);
    - [Eth] : the methods of [eth.py], in a small monad that records the
              statements handed to the store and propagates exceptions,
              those of the driver and the engine included (the [logger]
              calls have no part in the results and are left out);
    - [Api] : the methods of [api.py];
    - the stores and auxiliary definitions the statements use;
    - the properties: library facts first, then one section per claim
      C1 .. C10. *)

From Stdlib Require Import ZArith List Ascii String Bool Lia.
From stdpp Require Import base gmap strings list.

Local Open Scope Z_scope.

(* ===================================================================== *)
(** * Python values and library functions *)
(* ===================================================================== *)

Module Py.

(** The dynamically typed values that reach the methods: [None], an [int]
    (unbounded) or a [str].  Strings are sequences of code points below 256. *)
Inductive PyVal : Type :=
  | PyNone
  | PyInt (n : Z)
  | PyStr (s : string).

(** The exceptions the modelled code can raise; the last two come from the
    database driver (an integer parameter that does not fit 64 bits) and
    from the engine (an integer sum that leaves 64 bits).  None of them is
    a [RuntimeError], so the [except RuntimeError] clause of
    [get_block_by_hash] never intercepts them. *)
Inductive PyExc : Type :=
  | TypeError
  | ValueError
  | AttributeError
  | OverflowError
  | OperationalError.

Inductive result (A : Type) : Type :=
  | Ok (a : A)
  | Raise (e : PyExc).
Arguments Ok {A} a.
Arguments Raise {A} e.

(** Python truthiness ([not v] is its negation). *)
Definition truthy (v : PyVal) : bool :=
  match v with
  | PyNone => false
  | PyInt n => negb (n =? 0)
  | PyStr s => negb (String.eqb s "")
  end.

(** [v == w] on the modelled values: values of different types differ. *)
Definition py_eq (v w : PyVal) : bool :=
  match v, w with
  | PyNone, PyNone => true
  | PyInt a, PyInt b => a =? b
  | PyStr a, PyStr b => String.eqb a b
  | _, _ => false
  end.

(** [v + 1]: defined on [int]; [str + int] and [None + int] raise
    [TypeError]. *)
Definition py_add1 (v : PyVal) : result Z :=
  match v with
  | PyInt n => Ok (n + 1)
  | _ => Raise TypeError
  end.

(** ** Characters *)

Definition code (c : ascii) : Z := Z.of_N (N_of_ascii c).

(** The value of a hexadecimal digit ([0-9a-fA-F]). *)
Definition hex_digit (c : ascii) : option Z :=
  let n := code c in
  if (48 <=? n) && (n <=? 57) then Some (n - 48)
  else if (97 <=? n) && (n <=? 102) then Some (n - 87)
  else if (65 <=? n) && (n <=? 70) then Some (n - 55)
  else None.

Definition is_hex_digit (c : ascii) : bool :=
  match hex_digit c with Some _ => true | None => false end.

(** ASCII white space, as [bytes.fromhex] skips it. *)
Definition ascii_isspace (c : ascii) : bool :=
  let n := code c in
  ((9 <=? n) && (n <=? 13)) || (n =? 32).

(** White space of [str] ([str.isspace] below 256). *)
Definition str_isspace (c : ascii) : bool :=
  let n := code c in
  ascii_isspace c || ((28 <=? n) && (n <=? 31)) || (n =? 133) || (n =? 160).

Definition is_x (c : ascii) : bool :=
  Ascii.eqb c "x" || Ascii.eqb c "X".

(** The text behind a leading [0x] or [0X], if there is one. *)
Definition strip_0x (s : string) : option string :=
  match s with
  | String c0 (String c1 r) =>
      if Ascii.eqb c0 "0" && is_x c1 then Some r else None
  | _ => None
  end.

Definition starts_with (c : ascii) (s : string) : bool :=
  match s with
  | String c' _ => Ascii.eqb c' c
  | EmptyString => false
  end.

Definition tail (s : string) : string :=
  match s with
  | String _ s' => s'
  | EmptyString => EmptyString
  end.

(** ** [str.replace(old, new)], for a non-empty [old]

    Occurrences are replaced from left to right and do not overlap: after a
    match the scan resumes behind it.  [skip] counts the characters of the
    current match that are still to be dropped. *)
Fixpoint replace_from (old new : string) (skip : nat) (s : string) : string :=
  match s with
  | EmptyString => EmptyString
  | String c s' =>
      match skip with
      | S k => replace_from old new k s'
      | O =>
          if String.prefix old s
          then new +:+ replace_from old new (Nat.pred (String.length old)) s'
          else String c (replace_from old new O s')
      end
  end.

Definition replace (old new s : string) : string := replace_from old new O s.

(** [sub in s] *)
Fixpoint contains (sub s : string) : bool :=
  String.prefix sub s ||
  match s with
  | EmptyString => false
  | String _ s' => contains sub s'
  end.

(** ** [eth_utils.is_hex]

    On text: non-empty and a full match of [(0[xX])?[0-9a-fA-F]*].  The
    prefix is optional, so a string of decimal digits is hex text. *)
Fixpoint all_hex (s : string) : bool :=
  match s with
  | EmptyString => true
  | String c s' => is_hex_digit c && all_hex s'
  end.

Definition is_hex (s : string) : bool :=
  negb (String.eqb s "") &&
  (all_hex s ||
   match strip_0x s with
   | Some r => all_hex r
   | None => false
   end).

(** ** [int(s, 16)]

    White space around the literal, an optional sign, an optional [0x]
    prefix, then digits; single underscores may separate digits (and may
    follow the prefix).  Anything else raises [ValueError].

    An all-ASCII argument is parsed as it is, and only ASCII white space is
    stripped.  Any other argument is first rewritten, every [str] white
    space becoming a blank, so there the larger class is stripped. *)
Fixpoint all_ascii (s : string) : bool :=
  match s with
  | EmptyString => true
  | String c s' => (code c <? 128) && all_ascii s'
  end.

Definition int_isspace (s : string) (c : ascii) : bool :=
  if all_ascii s then ascii_isspace c else str_isspace c.

Fixpoint lstrip (sp : ascii -> bool) (s : string) : string :=
  match s with
  | EmptyString => EmptyString
  | String c s' => if sp c then lstrip sp s' else s
  end.

(** The digit loop: [prev_us] says the previous character was an
    underscore, [seen] that a digit was read.  Returns the value and the
    unread rest. *)
Fixpoint scan16 (prev_us seen : bool) (acc : Z) (s : string)
  : option (bool * Z * string) :=
  match s with
  | EmptyString => if prev_us then None else Some (seen, acc, EmptyString)
  | String c s' =>
      match hex_digit c with
      | Some d => scan16 false true (16 * acc + d) s'
      | None =>
          if Ascii.eqb c "_"
          then (if prev_us then None else scan16 true seen acc s')
          else (if prev_us then None else Some (seen, acc, s))
      end
  end.

Definition int16 (s : string) : result Z :=
  let sp := int_isspace s in
  let s1 := lstrip sp s in
  let neg := starts_with "-" s1 in
  let s2 := if starts_with "+" s1 || starts_with "-" s1 then tail s1 else s1 in
  let s3 :=
    match strip_0x s2 with
    | Some r => if starts_with "_" r then tail r else r
    | None => s2
    end in
  if starts_with "_" s3 then Raise ValueError
  else
    match scan16 false false 0 s3 with
    | Some (true, v, rest) =>
        if String.eqb (lstrip sp rest) ""
        then Ok (if neg then - v else v)
        else Raise ValueError
    | _ => Raise ValueError
    end.

(** ** Bytes *)

Definition byte_of_nibbles (hi lo : Z) : Byte.byte :=
  match Byte.of_N (Z.to_N (16 * hi + lo)) with
  | Some b => b
  | None => Byte.x00
  end.

(** [bytes.fromhex(s)] (hence [HexBytes.fromhex]): pairs of hex digits,
    ASCII white space allowed between pairs; [None] stands for the
    [ValueError] of any other text.  No [0x] prefix is accepted. *)
Fixpoint fromhex (s : string) : option (list Byte.byte) :=
  match s with
  | EmptyString => Some []
  | String c s' =>
      if ascii_isspace c then fromhex s'
      else
        match hex_digit c, s' with
        | Some hi, String c2 s'' =>
            match hex_digit c2 with
            | Some lo => cons (byte_of_nibbles hi lo) <$> fromhex s''
            | None => None
            end
        | _, _ => None
        end
  end.

(** [binascii.unhexlify]: strict pairs of hex digits. *)
Fixpoint unhexlify (s : string) : option (list Byte.byte) :=
  match s with
  | EmptyString => Some []
  | String c (String c2 s'') =>
      match hex_digit c, hex_digit c2 with
      | Some hi, Some lo => cons (byte_of_nibbles hi lo) <$> unhexlify s''
      | _, _ => None
      end
  | String _ EmptyString => None
  end.

(** [HexBytes(s)] on a [str]: drop a [0x]/[0X] prefix, left-pad with ["0"]
    when the length of the whole argument is odd, then [unhexlify]. *)
Definition HexBytes (s : string) : result (list Byte.byte) :=
  let non_prefixed :=
    match strip_0x s with
    | Some r => r
    | None => s
    end in
  let padded :=
    if Nat.odd (String.length s) then String "0" non_prefixed
    else non_prefixed in
  match unhexlify padded with
  | Some bs => Ok bs
  | None => Raise ValueError
  end.

(** ** [hex(n)] *)

Definition hex_char (d : Z) : ascii :=
  ascii_of_N (Z.to_N (if d <? 10 then 48 + d else 87 + d)).

Fixpoint hex_digits (fuel : nat) (n : Z) (acc : string) : string :=
  let acc' := String (hex_char (n mod 16)) acc in
  match fuel with
  | O => acc'
  | S f => if n <? 16 then acc' else hex_digits f (n / 16) acc'
  end.

Definition hex_nat (n : Z) : string :=
  hex_digits (Z.to_nat (Z.log2 n)) n EmptyString.

Definition hex (n : Z) : string :=
  if n <? 0 then "-0x" +:+ hex_nat (- n) else "0x" +:+ hex_nat n.

End Py.

Import Py.

(* ===================================================================== *)
(** * The ledger store *)
(* ===================================================================== *)

Module Sql.

(** The engine's INTEGER: a signed 64-bit number. *)
Definition int64 (n : Z) : bool := (- 2 ^ 63 <=? n) && (n <? 2 ^ 63).

(** A storage key is a rowid the engine assigns: 1 for the first row of a
    table, then one more than the greatest key, within 64 bits. *)
Definition rowid (n : Z) : bool := (1 <=? n) && (n <? 2 ^ 63).

(** [blockchain(id, timestamp, block_hash, prev_hash, records_json)], [id]
    being the primary key. *)
Record BlockRow : Type := BlockRow_of {
  id : Z;
  timestamp : string;
  block_hash : string;
  prev_hash : string;
  records_json : string;
  id_rowid : rowid id = true
}.

Abbreviation mkBlock i t h p j := (BlockRow_of i t h p j eq_refl).

(** [account_balances(account, amount, block_id, currency_type)] *)
Record BalanceRow : Type := mkBalance {
  account : string;
  amount : Z;
  block_id : Z;
  currency_type : Z
}.

(** The two tables behind [blockchain_db] and [account_balances_db], each in
    the order in which the engine scans it.  An [amount] that does not fit
    64 bits stands for a REAL the column holds. *)
Record Store : Type := mkStore {
  blockchain : list BlockRow;
  account_balances : list BalanceRow
}.

(** The statements the methods send, with their bound parameters. *)
Inductive Stmt : Type :=
  | SelectLastNumber
  | SelectBlockByHash (h : string)
  | SelectLastHash
  | SelectHashById (n : Z)
  | SelectBalance (address : string) (n : Z).

(** [ORDER BY id DESC LIMIT 1]: a row of greatest [id]. *)
Fixpoint order_by_id_desc_limit_1 (t : list BlockRow) : option BlockRow :=
  match t with
  | [] => None
  | r :: t' =>
      match order_by_id_desc_limit_1 t' with
      | Some r' => if id r <? id r' then Some r' else Some r
      | None => Some r
      end
  end.

(** [WHERE block_hash = :block_hash] and [WHERE id = :block_number], first
    row of the scan ([fetchone]). *)
Definition where_block_hash (h : string) (t : list BlockRow) : option BlockRow :=
  List.find (fun r => String.eqb (block_hash r) h) t.

Definition where_id (n : Z) (t : list BlockRow) : option BlockRow :=
  List.find (fun r => id r =? n) t.

(** [WHERE account = :address AND block_id <= :block_number
     AND currency_type = 1] *)
Definition balance_where (address : string) (n : Z) (e : BalanceRow) : bool :=
  String.eqb (account e) address && (block_id e <=? n) && (currency_type e =? 1).

(** The integer parameters of a statement are bound as 64-bit integers. *)
Definition params_fit (q : Stmt) : bool :=
  match q with
  | SelectHashById n => int64 n
  | SelectBalance _ n => int64 n
  | _ => true
  end.

(** A column value as Python receives it: [None], an [int], or a [float],
    of which the code only asks whether it is zero. *)
Inductive SqlValue : Type :=
  | SqlNull
  | SqlInteger (n : Z)
  | SqlReal (is_zero : bool).

(** The aggregate [sum] over terms taken in scan order.  A term that does
    not fit 64 bits is a REAL (an integer product that overflows is
    converted), and from the first REAL on the sum is a REAL; an integer
    partial sum that leaves 64 bits before that makes the statement fail
    with "integer overflow". *)
Inductive Summed : Type :=
  | SumInteger (n : Z)
  | SumReal
  | SumOverflow.

Fixpoint sum_step (acc : Z) (terms : list Z) : Summed :=
  match terms with
  | [] => SumInteger acc
  | x :: l =>
      if int64 x
      then (if int64 (acc + x) then sum_step (acc + x) l else SumOverflow)
      else SumReal
  end.

Section Queries.

(** Floating point belongs to the storage engine: [real_sum_is_zero terms]
    says whether the REAL it computes for the sum of [terms] is 0.0. *)
Variable real_sum_is_zero : list Z -> bool.

(** [sum]: SQL [NULL] over no rows. *)
Definition sql_sum (terms : list Z) : result SqlValue :=
  match terms with
  | [] => Ok SqlNull
  | _ :: _ =>
      match sum_step 0 terms with
      | SumInteger n => Ok (SqlInteger n)
      | SumReal => Ok (SqlReal (real_sum_is_zero terms))
      | SumOverflow => Raise OperationalError
      end
  end.

(** [strftime('%s', timestamp)] belongs to the storage engine.  It yields
    the decimal text of the epoch seconds, which [int] reads back as that
    integer, or SQL [NULL] when the engine does not recognise the time
    string; [epoch_seconds] gives the integer, [None] for [NULL]. *)
Variable epoch_seconds : string -> option Z.

(** [SELECT id - 1 FROM blockchain ORDER BY id DESC LIMIT 1] *)
Definition select_last_number (db : Store) : option Z :=
  (fun r => id r - 1) <$> order_by_id_desc_limit_1 (blockchain db).

(** [SELECT id - 1, strftime('%s', timestamp), block_hash, prev_hash,
            records_json FROM blockchain WHERE block_hash = :block_hash] *)
Definition select_block_by_hash (db : Store) (h : string)
  : option (Z * option Z * string * string * string) :=
  (fun r => (id r - 1, epoch_seconds (timestamp r), block_hash r, prev_hash r,
             records_json r))
    <$> where_block_hash h (blockchain db).

(** [SELECT block_hash FROM blockchain ORDER BY id DESC LIMIT 1] *)
Definition select_last_hash (db : Store) : option string :=
  block_hash <$> order_by_id_desc_limit_1 (blockchain db).

(** [SELECT block_hash FROM blockchain WHERE id = :block_number]; whether
    the parameter can be bound at all is decided in [execute_result]. *)
Definition select_hash_by_id (db : Store) (n : Z) : option string :=
  block_hash <$> where_id n (blockchain db).

(** [SELECT sum(amount * 10) FROM account_balances WHERE ...]: an aggregate
    always yields one row, of one column, unless the sum fails. *)
Definition select_balance (db : Store) (address : string) (n : Z)
  : result (option (list SqlValue)) :=
  match sql_sum (List.map (fun e => amount e * 10)
                   (List.filter (balance_where address n) (account_balances db)))
  with
  | Ok v => Ok (Some [v])
  | Raise e => Raise e
  end.

End Queries.

End Sql.

Import Sql.

(* ===================================================================== *)
(** * The query monad *)
(* ===================================================================== *)

(** A computation yields the statements it handed to [execute], in order,
    and a value or the exception that ended it. *)
Definition M (A : Type) : Type := (list Stmt * result A)%type.

Definition ret {A} (a : A) : M A := ([], Ok a).

Definition lift {A} (r : result A) : M A := ([], r).

Definition bind {A B} (m : M A) (k : A -> M B) : M B :=
  match m with
  | (t, Ok a) => (t ++ fst (k a), snd (k a))
  | (t, Raise e) => (t, Raise e)
  end.

(** [db.execute(stmt, params).fetchone()], [r] being what the engine
    answers: the driver raises [OverflowError] on an integer parameter that
    does not fit 64 bits, and the engine's failure is raised as it is. *)
Definition execute_result {A} (q : Stmt) (r : result A) : M A :=
  if params_fit q then ([q], r) else ([q], Raise OverflowError).

Definition execute {A} (q : Stmt) (row : A) : M A := execute_result q (Ok row).

Definition trace {A} (m : M A) : list Stmt := fst m.
Definition outcome {A} (m : M A) : result A := snd m.

Notation "x <- m ;; k" := (bind m (fun x => k))
  (at level 100, m at next level, right associativity).

(** [BlockData] is a dictionary from field names to values. *)
Inductive Field : Type :=
  | FInt (n : Z)
  | FBytes (bs : list Byte.byte).

Abbreviation BlockData := (gmap string Field).

(** [s.replace(old, new)] as a method call on a value: only [str] has the
    attribute. *)
Definition py_replace (v : PyVal) (old new : string) : result string :=
  match v with
  | PyStr s => Ok (replace old new s)
  | _ => Raise AttributeError
  end.

(** [int(x)] on the second column of the block row: [int(None)] raises
    [TypeError]. *)
Definition py_int (x : option Z) : result Z :=
  match x with
  | Some n => Ok n
  | None => Raise TypeError
  end.

(** [HexBytes.fromhex(x)] *)
Definition HexBytes_fromhex (s : string) : result (list Byte.byte) :=
  match fromhex s with
  | Some bs => Ok bs
  | None => Raise ValueError
  end.

(* ===================================================================== *)
(** * [src/ethapi/eth.py] *)
(* ===================================================================== *)

Module Eth.
Section EthApi.

Variable epoch_seconds : string -> option Z.
Variable real_sum_is_zero : list Z -> bool.
Variable db : Store.

(** [block_number] (lines 18-36) *)
Definition block_number : M Z :=
  row <- execute SelectLastNumber (select_last_number db) ;;
  match row with
  | None => ret 0
  | Some n => ret n
  end.

(** [get_block_by_hash] (lines 38-82).  [full_tx] is accepted and not used. *)
Definition get_block_by_hash (block_hash : PyVal) (full_tx : bool)
  : M (option BlockData) :=
  if negb (truthy block_hash) then ret None
  else
    block_hash <- lift (py_replace block_hash "0x" "") ;;
    row <- execute (SelectBlockByHash block_hash)
                   (select_block_by_hash epoch_seconds db block_hash) ;;
    match row with
    | None => ret None
    | Some (row0, row1, row2, row3, _) =>
        let b : BlockData := ∅ in
        let b := <["number" := FInt row0]> b in
        t <- lift (py_int row1) ;;
        let b := <["timestamp" := FInt t]> b in
        h <- lift (HexBytes_fromhex row2) ;;
        let b := <["hash" := FBytes h]> b in
        b <- (if negb (String.eqb row3 "genesis")
              then p <- lift (HexBytes_fromhex row3) ;;
                   ret (<["parentHash" := FBytes p]> b)
              else ret b) ;;
        ret (Some b)
    end.

(** [_get_block_hash_by_number] (lines 98-131) *)
Definition _get_block_hash_by_number (block_number : PyVal) : M PyVal :=
  let block_number :=
    if py_eq block_number (PyStr "earliest") then PyInt 0 else block_number in
  row <- (if py_eq block_number (PyStr "latest")
          then execute SelectLastHash (select_last_hash db)
          else n <- lift (py_add1 block_number) ;;
               execute (SelectHashById n) (select_hash_by_id db n)) ;;
  match row with
  | None => ret PyNone
  | Some row0 => ret (PyStr row0)
  end.

(** [eth_get_block_by_number] (lines 84-96) *)
Definition eth_get_block_by_number (block_number : PyVal) (full_tx : bool)
  : M (option BlockData) :=
  block_number <-
    match block_number with
    | PyStr s => if is_hex s then n <- lift (int16 s) ;; ret (PyInt n)
                 else ret block_number
    | _ => ret block_number
    end ;;
  h <- _get_block_hash_by_number block_number ;;
  get_block_by_hash h full_tx.

(** [_get_block_number_from_identifier] (lines 191-200) *)
Definition _get_block_number_from_identifier (block_identifier : PyVal) : M Z :=
  if py_eq block_identifier (PyStr "earliest") then ret 0
  else
    match block_identifier with
    | PyStr s => if is_hex s then lift (int16 s) else block_number
    | _ => block_number
    end.

(** [get_balance] (lines 153-178).  The tests on the fetched row are
    [not row or len(row) < 1 or not row[0]]; [hex] of a [float] raises
    [TypeError]. *)
Definition get_balance (address : string) (block_identifier : PyVal)
  : M (list Byte.byte) :=
  block_number <- _get_block_number_from_identifier block_identifier ;;
  row <- execute_result (SelectBalance address block_number)
                        (select_balance real_sum_is_zero db address block_number) ;;
  match row with
  | None => lift (HexBytes "0x0")
  | Some [] => lift (HexBytes "0x0")
  | Some (SqlNull :: _) => lift (HexBytes "0x0")
  | Some (SqlInteger row0 :: _) =>
      if row0 =? 0 then lift (HexBytes "0x0") else lift (HexBytes (hex row0))
  | Some (SqlReal is_zero :: _) =>
      if is_zero then lift (HexBytes "0x0") else lift (Raise TypeError)
  end.

(** The index helpers are stubs that find no hash (lines 202-212); the two
    lookups built on them hand [None] to [get_block_by_hash] (lines
    214-234). *)
Definition _get_transaction_hash_by_block_number_and_index
           (block_number : PyVal) (index : Z) : M PyVal :=
  ret PyNone.

Definition _get_transaction_hash_by_block_hash_and_index
           (block_number : PyVal) (index : Z) : M PyVal :=
  ret PyNone.

Definition get_transaction_by_block_number_and_index
           (block_number : PyVal) (index : Z) : M (option BlockData) :=
  block_hash <- _get_transaction_hash_by_block_number_and_index block_number index ;;
  get_block_by_hash block_hash true.

Definition get_transaction_by_block_hash_and_index
           (block_number : PyVal) (index : Z) : M (option BlockData) :=
  block_hash <- _get_transaction_hash_by_block_hash_and_index block_number index ;;
  get_block_by_hash block_hash true.

(** [syncing] (lines 133-138), [chain_id] (lines 140-144) with the constant
    of [ethapi.config], and [gas_price] (lines 146-151). *)
Variable CHAIN_ID : Z.

Definition syncing : bool := false.

Definition chain_id : Z := CHAIN_ID.

Definition gas_price : Z := 0.

(** [get_transaction_by_hash] (lines 180-189) and [get_transaction_receipt]
    (lines 236-245): absent on a falsy hash, and absent otherwise. *)
Definition get_transaction_by_hash (tx_hash : PyVal) : M (option BlockData) :=
  if negb (truthy tx_hash) then ret None
  else ret None.

Definition get_transaction_receipt (tx_hash : PyVal) : M (option BlockData) :=
  if negb (truthy tx_hash) then ret None
  else ret None.

(** [get_transaction_count] (lines 247-258) *)
Definition get_transaction_count (address : string) (block_identifier : PyVal)
  : M Z :=
  ret 0.

End EthApi.
End Eth.

(* ===================================================================== *)
(** * [src/ethapi/api.py] *)
(* ===================================================================== *)

(** The early draft keeps one connection [conn] for the [blockchain] table;
    its four methods have the bodies of their namesakes in [eth.py]. *)
Module Api.
Section EthApi.

Variable epoch_seconds : string -> option Z.
Variable conn : Store.

Definition block_number : M Z :=
  row <- execute SelectLastNumber (select_last_number conn) ;;
  match row with
  | None => ret 0
  | Some n => ret n
  end.

Definition get_block_by_hash (block_hash : PyVal) (full_tx : bool)
  : M (option BlockData) :=
  if negb (truthy block_hash) then ret None
  else
    block_hash <- lift (py_replace block_hash "0x" "") ;;
    row <- execute (SelectBlockByHash block_hash)
                   (select_block_by_hash epoch_seconds conn block_hash) ;;
    match row with
    | None => ret None
    | Some (row0, row1, row2, row3, _) =>
        let b : BlockData := ∅ in
        let b := <["number" := FInt row0]> b in
        t <- lift (py_int row1) ;;
        let b := <["timestamp" := FInt t]> b in
        h <- lift (HexBytes_fromhex row2) ;;
        let b := <["hash" := FBytes h]> b in
        b <- (if negb (String.eqb row3 "genesis")
              then p <- lift (HexBytes_fromhex row3) ;;
                   ret (<["parentHash" := FBytes p]> b)
              else ret b) ;;
        ret (Some b)
    end.

Definition _get_block_hash_by_number (block_number : PyVal) : M PyVal :=
  let block_number :=
    if py_eq block_number (PyStr "earliest") then PyInt 0 else block_number in
  row <- (if py_eq block_number (PyStr "latest")
          then execute SelectLastHash (select_last_hash conn)
          else n <- lift (py_add1 block_number) ;;
               execute (SelectHashById n) (select_hash_by_id conn n)) ;;
  match row with
  | None => ret PyNone
  | Some row0 => ret (PyStr row0)
  end.

Definition eth_get_block_by_number (block_number : PyVal) (full_tx : bool)
  : M (option BlockData) :=
  block_number <-
    match block_number with
    | PyStr s => if is_hex s then n <- lift (int16 s) ;; ret (PyInt n)
                 else ret block_number
    | _ => ret block_number
    end ;;
  h <- _get_block_hash_by_number block_number ;;
  get_block_by_hash h full_tx.

End EthApi.
End Api.

(** The spec's scenario: a genesis record and one child. *)
Definition scenario_epoch (t : string) : option Z :=
  if String.eqb t "1970-01-01 00:16:40" then Some 1000
  else if String.eqb t "1970-01-01 00:16:50" then Some 1010
  else None.

Definition scenario_db : Store :=
  mkStore [ mkBlock 1 "1970-01-01 00:16:40" "aa" "genesis" "[]";
            mkBlock 2 "1970-01-01 00:16:50" "bb" "aa" "[]" ]
          [ mkBalance "0xabc" 5 1 1; mkBalance "0xabc" 7 2 1 ].

(* ===================================================================== *)
(** * Definitions used in the statements *)
(* ===================================================================== *)

(** The dictionary [get_block_by_hash] builds from a row. *)
Definition block_fields (number t : Z) (h : list Byte.byte)
           (parent : option (list Byte.byte)) : BlockData :=
  let b := <["hash" := FBytes h]>
             (<["timestamp" := FInt t]> (<["number" := FInt number]> ∅)) in
  match parent with
  | Some p => <["parentHash" := FBytes p]> b
  | None => b
  end.

(** The outcome of shaping the row [r]: the exceptions of the conversions
    pass through. *)
Definition shape (eps : string -> option Z) (r : BlockRow)
  : result (option BlockData) :=
  match eps (timestamp r), fromhex (block_hash r) with
  | None, _ => Raise TypeError
  | Some _, None => Raise ValueError
  | Some t, Some h =>
      if String.eqb (prev_hash r) "genesis"
      then Ok (Some (block_fields (id r - 1) t h None))
      else match fromhex (prev_hash r) with
           | Some p => Ok (Some (block_fields (id r - 1) t h (Some p)))
           | None => Raise ValueError
           end
  end.

(** A store whose only record has the empty string as [block_hash]. *)
Definition empty_hash_db : Store :=
  mkStore [ mkBlock 1 "1970-01-01 00:16:40" "" "genesis" "[]" ] [].

(** The spec's round trip: a record stored under ["abc123"] is returned for
    ["0xabc123"] and for ["abc123"]. *)
Definition abc123_db : Store :=
  mkStore [ mkBlock 1 "1970-01-01 00:16:40" "abc123" "genesis" "[]" ] [].

Definition abcd_db : Store :=
  mkStore [ mkBlock 1 "1970-01-01 00:16:40" "abcd" "genesis" "[]" ] [].

(** The characters [bytes.fromhex] accepts. *)
Definition fromhex_char (c : ascii) : bool := ascii_isspace c || is_hex_digit c.

Fixpoint all_fromhex_chars (s : string) : bool :=
  match s with
  | EmptyString => true
  | String c s' => fromhex_char c && all_fromhex_chars s'
  end.

(** The number a string of hex digits denotes, most significant first. *)
Fixpoint hex_value_from (acc : Z) (s : string) : Z :=
  match s with
  | EmptyString => acc
  | String c s' =>
      match hex_digit c with
      | Some d => hex_value_from (16 * acc + d) s'
      | None => acc
      end
  end.

Definition hex_value (s : string) : Z := hex_value_from 0 s.

(** Two records at storage keys 11 and 17 (external numbers 10 and 16). *)
Definition sparse_db : Store :=
  mkStore [ mkBlock 11 "1970-01-01 00:16:40" "0a" "09" "[]";
            mkBlock 17 "1970-01-01 00:16:50" "10" "0f" "[]" ] [].

(** The rows the balance statement selects for a bound [n], and the value
    of its aggregate over them. *)
Definition selected (db : Store) (address : string) (n : Z) : list BalanceRow :=
  List.filter (balance_where address n) (account_balances db).

Definition scaled_sum (l : list BalanceRow) : Z :=
  fold_right Z.add 0 (List.map (fun e => amount e * 10) l).

Definition amount_sum (l : list BalanceRow) : Z :=
  fold_right Z.add 0 (List.map amount l).

(** The terms of the aggregate over a selection, in scan order. *)
Definition scaled (l : list BalanceRow) : list Z :=
  List.map (fun e => amount e * 10) l.

(** Every term, and every running sum from [acc] on, fits 64 bits. *)
Fixpoint sums_fit (acc : Z) (terms : list Z) : bool :=
  match terms with
  | [] => true
  | x :: l => int64 x && int64 (acc + x) && sums_fit (acc + x) l
  end.

Definition selection_fits (db : Store) (address : string) (n : Z) : bool :=
  sums_fit 0 (scaled (selected db address n)).

(** The total of the absolute scaled amounts of a table. *)
Definition volume (l : list BalanceRow) : Z :=
  fold_right (fun e a => Z.abs (amount e * 10) + a) 0 l.

(** The part of [get_balance] behind the resolution of the identifier to
    [n] (lines 162-178). *)
Definition balance_statement (rsz : list Z -> bool) (db : Store)
           (address : string) (n : Z) : M (list Byte.byte) :=
  row <- execute_result (SelectBalance address n)
                        (select_balance rsz db address n) ;;
  match row with
  | None => lift (HexBytes "0x0")
  | Some [] => lift (HexBytes "0x0")
  | Some (SqlNull :: _) => lift (HexBytes "0x0")
  | Some (SqlInteger row0 :: _) =>
      if row0 =? 0 then lift (HexBytes "0x0") else lift (HexBytes (hex row0))
  | Some (SqlReal is_zero :: _) =>
      if is_zero then lift (HexBytes "0x0") else lift (Raise TypeError)
  end.

(** An engine instance for the stores of the examples, in which no REAL
    arises: it is never consulted there. *)
Definition no_reals (terms : list Z) : bool := false.

(** An amount whose scaled value fits 64 bits while twice it does not. *)
Definition half_range : Z := 5 * 10 ^ 17.

(** An account whose four amounts sum to 0, in an order in which the second
    running sum leaves 64 bits. *)
Definition overflow_db : Store :=
  mkStore (blockchain scenario_db)
          [ mkBalance "0xabc" half_range 1 1; mkBalance "0xabc" half_range 1 1;
            mkBalance "0xabc" (- half_range) 1 1;
            mkBalance "0xabc" (- half_range) 1 1 ].

(** An account credited 5 and debited 5 at block 1, and an unknown one. *)
Definition zero_sum_db : Store :=
  mkStore (blockchain scenario_db)
          [ mkBalance "0xabc" 5 1 1; mkBalance "0xabc" (-5) 1 1 ].

(** The balance as the specification words it, for external number [N]:
    the sum, over the rows with [account = address], [currency_type = 1] and
    [block_id <= N + 1], of the amount times 10. *)
Definition balance_as_specified (db : Store) (address : string) (N : Z) : Z :=
  fold_right Z.add 0
    (List.map (fun e => amount e * 10)
       (List.filter
          (fun e => String.eqb (account e) address && (currency_type e =? 1) &&
                    (block_id e <=? N + 1))
          (account_balances db))).



(** Storage keys start at 1. *)
Definition keys_from_one (db : Store) : Prop :=
  forall r, In r (blockchain db) -> 1 <= id r.

(** No stored hash holds the text ["0x"]. *)
Definition hashes_unprefixed (db : Store) : Prop :=
  forall r, In r (blockchain db) -> contains "0x" (block_hash r) = false.

(** The field names [get_block_by_hash] can set. *)
Definition block_keys : list string :=
  ["number"; "timestamp"; "hash"; "parentHash"].

(* ===================================================================== *)
(** * Properties *)
(* ===================================================================== *)

(** ** The library functions on examples *)

Example replace_ex : replace "0x" "" "0xab0xcd0" = "abcd0".
Proof. reflexivity. Qed.
Example is_hex_ex : (is_hex "10", is_hex "0x1f", is_hex "latest", is_hex "", is_hex "0x")
                    = (true, true, false, false, true).
Proof. reflexivity. Qed.
Example int16_ex : (int16 "10", int16 "0x1F", int16 " -0x_1_0 ", int16 "0x", int16 "1__0")
                   = (Ok 16, Ok 31, Ok (-16), Raise ValueError, Raise ValueError).
Proof. reflexivity. Qed.
Example hex_ex : (hex 0, hex 500, hex (-5), hex 255, hex 256) = ("0x0", "0x1f4", "-0x5", "0xff", "0x100").
Proof. reflexivity. Qed.
Example fromhex_ex : (fromhex "aa bb", fromhex "0xaa", fromhex "a") = (Some [Byte.xaa; Byte.xbb], None, None).
Proof. reflexivity. Qed.
Example HexBytes_ex : (HexBytes "0x0", HexBytes "0x1f4", HexBytes "-0x5") = (Ok [Byte.x00], Ok [Byte.x01; Byte.xf4], Raise ValueError).
Proof. reflexivity. Qed.

(** ** The draft and the refined version agree *)

Lemma api_block_number (db : Store) : Api.block_number db = Eth.block_number db.
Proof. reflexivity. Qed.

Lemma api_get_block_by_hash eps (db : Store) h full :
  Api.get_block_by_hash eps db h full = Eth.get_block_by_hash eps db h full.
Proof. reflexivity. Qed.

Lemma api_get_block_hash_by_number (db : Store) n :
  Api._get_block_hash_by_number db n = Eth._get_block_hash_by_number db n.
Proof. reflexivity. Qed.

Lemma api_eth_get_block_by_number eps (db : Store) n full :
  Api.eth_get_block_by_number eps db n full
  = Eth.eth_get_block_by_number eps db n full.
Proof. reflexivity. Qed.

(** ** The monad and the values *)

Lemma bind_ret_l {A B} (a : A) (k : A -> M B) : bind (ret a) k = k a.
Proof. unfold bind, ret. cbn [app]. now destruct (k a). Qed.

Lemma bind_lift_Ok {A B} (a : A) (k : A -> M B) : bind (lift (Ok a)) k = k a.
Proof. apply bind_ret_l. Qed.

Lemma bind_lift_Raise {A B} e (k : A -> M B) : bind (lift (Raise e)) k = ([], Raise e).
Proof. reflexivity. Qed.

Lemma bind_execute {A B} q (row : A) (k : A -> M B) :
  params_fit q = true ->
  bind (execute q row) k = (q :: trace (k row), outcome (k row)).
Proof. unfold execute, execute_result. intros ->. reflexivity. Qed.

Lemma py_eq_neq v w : v <> w -> py_eq v w = false.
Proof.
  destruct v as [|a|a], w as [|b|b]; cbn [py_eq]; intros H;
    try reflexivity; try congruence.
  - apply Z.eqb_neq. congruence.
  - apply String.eqb_neq. congruence.
Qed.

(** ** [str.replace] *)

Lemma eqb_empty_false c s : String.eqb (String c s) "" = false.
Proof. reflexivity. Qed.

Lemma replace_0x_prefixed s : replace "0x" "" ("0x" +:+ s) = replace "0x" "" s.
Proof. destruct s; reflexivity. Qed.

Lemma replace_0x_cons c s :
  String.prefix "0x" (String c s) = false ->
  replace "0x" "" (String c s) = String c (replace "0x" "" s).
Proof. unfold replace. cbn [replace_from]. intros ->. reflexivity. Qed.

(** Without an occurrence of the pattern nothing is replaced. *)
Lemma replace_0x_absent s : contains "0x" s = false -> replace "0x" "" s = s.
Proof.
  induction s as [|c s IH]; [reflexivity|].
  intros H. change (contains "0x" (String c s))
    with (String.prefix "0x" (String c s) || contains "0x" s) in H.
  apply orb_false_iff in H as [Hp Hc].
  rewrite replace_0x_cons by exact Hp. now rewrite IH.
Qed.

Lemma prefix_0x_inv c s :
  String.prefix "0x" (String c s) = true -> exists s', s = String "x" s'.
Proof.
  cbn [String.prefix]. destruct (ascii_dec "0" c); [|discriminate].
  destruct s as [|a s]; cbn [String.prefix]; [discriminate|].
  destruct (ascii_dec "x" a) as [<-|]; [|discriminate]. eauto.
Qed.

(** ** Hex text, [int(s, 16)] and [hex] *)

Lemma hex_digit_plain c d :
  hex_digit c = Some d ->
  str_isspace c = false /\ Ascii.eqb c "+" = false /\ Ascii.eqb c "-" = false /\
  Ascii.eqb c "_" = false /\ is_x c = false.
Proof.
  destruct c as [[] [] [] [] [] [] [] []]; vm_compute; intros H;
    first [discriminate H | repeat split].
Qed.

Lemma int_isspace_hex_digit s c d : hex_digit c = Some d -> int_isspace s c = false.
Proof.
  intros Hd. unfold int_isspace. destruct (all_ascii s).
  - revert Hd. destruct c as [[] [] [] [] [] [] [] []]; vm_compute; intros H;
      first [discriminate H | reflexivity].
  - now apply hex_digit_plain in Hd.
Qed.

Lemma is_hex_digit_value c : is_hex_digit c = true -> exists d, hex_digit c = Some d.
Proof. unfold is_hex_digit. destruct (hex_digit c); [eauto | discriminate]. Qed.

Lemma all_hex_cons c s :
  all_hex (String c s) = true -> (exists d, hex_digit c = Some d) /\ all_hex s = true.
Proof.
  cbn [all_hex]. intros H. apply andb_true_iff in H as [Hc Hs].
  split; [now apply is_hex_digit_value | assumption].
Qed.

Lemma scan16_all_hex s :
  all_hex s = true ->
  forall seen acc,
    scan16 false seen acc s
    = Some (seen || negb (String.eqb s ""), hex_value_from acc s, EmptyString).
Proof.
  induction s as [|c s IH]; intros H seen acc.
  - cbn. now rewrite orb_false_r.
  - apply all_hex_cons in H as [[d Hd] Hs].
    cbn [scan16 hex_value_from]. rewrite Hd, (IH Hs), eqb_empty_false.
    cbn [negb orb]. now rewrite orb_true_r.
Qed.

Lemma strip_0x_all_hex s : all_hex s = true -> strip_0x s = None.
Proof.
  destruct s as [|c0 [|c1 r]]; try reflexivity. intros H.
  apply all_hex_cons in H as [_ H]. apply all_hex_cons in H as [[d Hd] _].
  apply hex_digit_plain in Hd as (_ & _ & _ & _ & Hx).
  cbn [strip_0x]. now rewrite Hx, andb_false_r.
Qed.

Lemma starts_with_underscore_all_hex s : all_hex s = true -> starts_with "_" s = false.
Proof.
  destruct s as [|c s]; [reflexivity|]. intros H.
  apply all_hex_cons in H as [[d Hd] _].
  now apply hex_digit_plain in Hd as (_ & _ & _ & Hu & _).
Qed.

(** Unprefixed hex digits denote their base-16 value. *)
Lemma int16_all_hex s : all_hex s = true -> s <> "" -> int16 s = Ok (hex_value s).
Proof.
  intros H Hne. destruct s as [|c s]; [congruence|].
  pose proof (all_hex_cons _ _ H) as [[d Hd] Hs].
  pose proof (hex_digit_plain _ _ Hd) as (_ & Hplus & Hminus & Hus & Hx).
  unfold int16. cbn [lstrip]. rewrite (int_isspace_hex_digit _ _ _ Hd).
  cbn [starts_with].
  rewrite Hplus, Hminus. cbn [orb]. rewrite (strip_0x_all_hex _ H).
  cbn [starts_with]. rewrite Hus, (scan16_all_hex _ H), eqb_empty_false.
  reflexivity.
Qed.

(** Behind a prefix the digits denote the same value; a bare prefix is not
    a literal. *)
Lemma int16_prefixed c r :
  is_x c = true -> all_hex r = true ->
  int16 (String "0" (String c r))
  = if String.eqb r "" then Raise ValueError else Ok (hex_value r).
Proof.
  intros Hx Hr. unfold int16.
  cbn [lstrip]. rewrite (int_isspace_hex_digit _ "0" 0 eq_refl).
  cbn [starts_with tail orb Ascii.eqb Bool.eqb]. cbn [strip_0x Ascii.eqb Bool.eqb andb].
  rewrite Hx, (starts_with_underscore_all_hex _ Hr). cbv iota.
  rewrite (starts_with_underscore_all_hex _ Hr), (scan16_all_hex _ Hr).
  destruct r; reflexivity.
Qed.

(** [is_hex] accepts exactly the non-empty all-digit strings and the
    prefixed ones. *)
Lemma is_hex_cases s :
  is_hex s = true ->
  (all_hex s = true /\ s <> "") \/
  (exists c r, s = String "0" (String c r) /\ is_x c = true /\ all_hex r = true).
Proof.
  unfold is_hex. intros H. apply andb_true_iff in H as [Hne H].
  apply orb_true_iff in H as [H|H].
  - left. split; [assumption|]. intros ->. discriminate Hne.
  - right. destruct s as [|c0 [|c1 r]]; try discriminate H. cbn [strip_0x] in H.
    destruct (Ascii.eqb_spec c0 "0") as [->|]; [|discriminate H].
    cbn [andb] in H. destruct (is_x c1) eqn:Hx; [|discriminate H]. eauto.
Qed.

Lemma is_hex_not_tag s : is_hex s = true -> s <> "earliest" /\ s <> "latest".
Proof. split; intros ->; discriminate. Qed.

Lemma hex_digit_hex_char d : 0 <= d < 16 -> hex_digit (hex_char d) = Some d.
Proof.
  intros H.
  assert (Hd : d = 0 \/ d = 1 \/ d = 2 \/ d = 3 \/ d = 4 \/ d = 5 \/ d = 6 \/ d = 7 \/
               d = 8 \/ d = 9 \/ d = 10 \/ d = 11 \/ d = 12 \/ d = 13 \/ d = 14 \/ d = 15)
    by lia.
  repeat (destruct Hd as [->|Hd]; [reflexivity|]). now subst.
Qed.

Lemma hex_value_from_linear s :
  all_hex s = true ->
  forall a, hex_value_from a s = a * 16 ^ Z.of_nat (String.length s) + hex_value s.
Proof.
  unfold hex_value. induction s as [|c s IH]; intros H a.
  - cbn. lia.
  - apply all_hex_cons in H as [[d Hd] Hs].
    cbn [hex_value_from String.length]. rewrite Hd.
    rewrite (IH Hs (16 * a + d)), (IH Hs (16 * 0 + d)).
    rewrite Nat2Z.inj_succ, Z.pow_succ_r by lia. lia.
Qed.

Lemma hex_digits_all_hex f : forall n acc,
  0 <= n -> all_hex acc = true -> all_hex (hex_digits f n acc) = true.
Proof.
  assert (Hstep : forall n acc, 0 <= n -> all_hex acc = true ->
                    all_hex (String (hex_char (n mod 16)) acc) = true).
  { intros n acc Hn Hacc. cbn [all_hex]. unfold is_hex_digit.
    rewrite hex_digit_hex_char by (apply Z.mod_pos_bound; lia). exact Hacc. }
  induction f as [|f IH]; intros n acc Hn Hacc; cbn [hex_digits].
  - now apply Hstep.
  - destruct (n <? 16); [now apply Hstep|].
    apply IH; [apply Z.div_pos; lia | now apply Hstep].
Qed.

Lemma hex_digits_nonempty f n acc : hex_digits f n acc <> "".
Proof.
  revert n acc. induction f as [|f IH]; intros n acc; cbn [hex_digits].
  - discriminate.
  - destruct (n <? 16); [discriminate | apply IH].
Qed.

Lemma hex_digits_value f : forall n acc,
  0 <= n < 16 ^ (Z.of_nat f + 1) -> all_hex acc = true ->
  hex_value (hex_digits f n acc)
  = n * 16 ^ Z.of_nat (String.length acc) + hex_value acc.
Proof.
  assert (Hstep : forall n acc, 0 <= n < 16 -> all_hex acc = true ->
            hex_value (String (hex_char (n mod 16)) acc)
            = n * 16 ^ Z.of_nat (String.length acc) + hex_value acc).
  { intros n acc Hn Hacc. unfold hex_value at 1. cbn [hex_value_from].
    rewrite hex_digit_hex_char by (apply Z.mod_pos_bound; lia).
    rewrite (hex_value_from_linear _ Hacc), Z.mod_small by lia. lia. }
  induction f as [|f IH]; intros n acc Hn Hacc; cbn [hex_digits].
  - apply Hstep; [|assumption]. cbn in Hn. lia.
  - destruct (n <? 16) eqn:E.
    + apply Z.ltb_lt in E. apply Hstep; [lia | assumption].
    + apply Z.ltb_ge in E.
      assert (Hacc' : all_hex (String (hex_char (n mod 16)) acc) = true).
      { cbn [all_hex]. unfold is_hex_digit.
        rewrite hex_digit_hex_char by (apply Z.mod_pos_bound; lia). exact Hacc. }
      rewrite IH; [| |exact Hacc'].
      * unfold hex_value at 1. cbn [hex_value_from String.length].
        rewrite hex_digit_hex_char by (apply Z.mod_pos_bound; lia).
        rewrite (hex_value_from_linear _ Hacc).
        rewrite Nat2Z.inj_succ, Z.pow_succ_r by lia.
        pose proof (Z.div_mod n 16 ltac:(lia)). lia.
      * split; [apply Z.div_pos; lia|].
        apply Z.div_lt_upper_bound; [lia|].
        replace (Z.of_nat (S f) + 1) with (Z.succ (Z.of_nat f + 1)) in Hn by lia.
        rewrite Z.pow_succ_r in Hn by lia. lia.
Qed.

Lemma log2_fuel n : 0 <= n -> n < 16 ^ (Z.of_nat (Z.to_nat (Z.log2 n)) + 1).
Proof.
  intros Hn. rewrite Z2Nat.id by apply Z.log2_nonneg.
  destruct (Z.eq_dec n 0) as [->|Hz]; [reflexivity|].
  pose proof (Z.log2_spec n ltac:(lia)) as [_ Hlt].
  eapply Z.lt_le_trans; [exact Hlt|].
  replace (Z.log2 n + 1) with (Z.succ (Z.log2 n)) by lia.
  apply Z.pow_le_mono_l. lia.
Qed.

Lemma hex_nat_spec n :
  0 <= n -> all_hex (hex_nat n) = true /\ hex_nat n <> "" /\ hex_value (hex_nat n) = n.
Proof.
  intros Hn. unfold hex_nat. split; [|split].
  - now apply hex_digits_all_hex.
  - apply hex_digits_nonempty.
  - rewrite hex_digits_value; [cbn; lia | split; [lia | now apply log2_fuel] | reflexivity].
Qed.

(** [hex] prints what [is_hex] accepts and [int(_, 16)] reads back. *)
Lemma int16_hex n : 0 <= n -> is_hex (hex n) = true /\ int16 (hex n) = Ok n.
Proof.
  intros Hn. destruct (hex_nat_spec n Hn) as (Hall & Hne & Hv).
  unfold hex. destruct (n <? 0) eqn:E; [apply Z.ltb_lt in E; lia|].
  change ("0x" +:+ hex_nat n) with (String "0" (String "x" (hex_nat n))).
  split.
  - unfold is_hex.
    change (strip_0x (String "0" (String "x" (hex_nat n)))) with (Some (hex_nat n)).
    cbv iota. rewrite Hall, orb_true_r. reflexivity.
  - rewrite int16_prefixed by (reflexivity || assumption). rewrite Hv.
    destruct (hex_nat n); [congruence | reflexivity].
Qed.

(** ** Decodable text *)

Lemma fromhex_chars s :
  (fromhex s <> None -> all_fromhex_chars s = true) /\
  (forall c, fromhex (String c s) <> None -> all_fromhex_chars (String c s) = true).
Proof.
  induction s as [|a s [IH1 IH2]].
  - split; [reflexivity|]. intros c. cbn [fromhex all_fromhex_chars]. unfold fromhex_char.
    destruct (ascii_isspace c); [reflexivity|].
    destruct (hex_digit c); congruence.
  - split; [apply IH2|]. intros c.
    change (fromhex (String c (String a s)))
      with (if ascii_isspace c then fromhex (String a s)
            else match hex_digit c with
                 | Some hi => match hex_digit a with
                              | Some lo => cons (byte_of_nibbles hi lo) <$> fromhex s
                              | None => None
                              end
                 | None => None
                 end).
    cbn [all_fromhex_chars]. unfold fromhex_char at 1 2. unfold is_hex_digit.
    destruct (ascii_isspace c) eqn:Ec.
    + intros H. cbn [orb andb]. now apply IH2.
    + destruct (hex_digit c) as [hi|]; [|congruence].
      destruct (hex_digit a) as [lo|]; [|congruence].
      intros H. rewrite !orb_true_r. cbn [andb]. apply IH1.
      destruct (fromhex s); [discriminate | now contradict H].
Qed.

Lemma fromhex_chars_no_0x s : all_fromhex_chars s = true -> contains "0x" s = false.
Proof.
  induction s as [|c s IH]; [reflexivity|].
  cbn [all_fromhex_chars]. intros H. apply andb_true_iff in H as [_ Hs].
  change (contains "0x" (String c s))
    with (String.prefix "0x" (String c s) || contains "0x" s).
  rewrite (IH Hs), orb_false_r.
  destruct (String.prefix "0x" (String c s)) eqn:E; [|reflexivity].
  apply prefix_0x_inv in E as [s' ->]. discriminate Hs.
Qed.

(** Text that decodes holds no ["0x"], so sanitising leaves it as it is. *)
Lemma fromhex_replace s bs : fromhex s = Some bs -> replace "0x" "" s = s.
Proof.
  intros H. apply replace_0x_absent, fromhex_chars_no_0x, fromhex_chars. congruence.
Qed.

(** ** The store *)

Lemma order_by_id_desc_limit_1_spec t :
  t <> [] ->
  exists r, order_by_id_desc_limit_1 t = Some r /\ In r t /\
            forall r', In r' t -> id r' <= id r.
Proof.
  induction t as [|a t IH]; [congruence|]. intros _.
  destruct t as [|b t].
  - exists a. simpl. repeat split; auto. intros r' [<-|[]]. lia.
  - destruct IH as (m & Hm & Hin & Hmax); [discriminate|].
    cbn [order_by_id_desc_limit_1] in Hm |- *. rewrite Hm.
    destruct (id a <? id m) eqn:E.
    + apply Z.ltb_lt in E. exists m. repeat split; [now right|].
      intros r' [<-|Hr']; [lia | now apply Hmax].
    + apply Z.ltb_ge in E. exists a. repeat split; [now left|].
      intros r' [<-|Hr']; [lia|]. specialize (Hmax _ Hr'). lia.
Qed.

(** A key that occurs once selects its row. *)
Lemma find_unique {A K : Type} (f : A -> K) (eqb : K -> K -> bool)
      (Heqb : forall a b, eqb a b = true <-> a = b) (l : list A) (r : A) :
  List.NoDup (List.map f l) -> In r l ->
  List.find (fun x => eqb (f x) (f r)) l = Some r.
Proof.
  induction l as [|a l IH]; [intros _ []|].
  intros Hnd Hin. simpl in Hnd. inversion Hnd as [|? ? Hnotin Hnd']; subst.
  simpl. destruct (eqb (f a) (f r)) eqn:E.
  - apply Heqb in E. destruct Hin as [->|Hin]; [reflexivity|].
    exfalso. apply Hnotin. rewrite E. now apply in_map.
  - destruct Hin as [->|Hin]; [|now apply IH].
    assert (eqb (f r) (f r) = true) by now apply Heqb. congruence.
Qed.

Lemma find_absent {A : Type} (p : A -> bool) (l : list A) :
  (forall x, In x l -> p x = false) -> List.find p l = None.
Proof.
  induction l as [|a l IH]; [reflexivity|]. intros H. simpl.
  rewrite (H a (or_introl eq_refl)). apply IH. intros x Hx. apply H. now right.
Qed.

Lemma where_block_hash_some h t r :
  where_block_hash h t = Some r -> In r t /\ block_hash r = h.
Proof.
  unfold where_block_hash. intros H. apply List.find_some in H as [Hin Heq].
  split; [assumption|]. now apply String.eqb_eq.
Qed.

Lemma where_block_hash_none h t :
  (forall r, In r t -> block_hash r <> h) -> where_block_hash h t = None.
Proof.
  intros H. apply find_absent. intros r Hr. apply String.eqb_neq. now apply H.
Qed.

Lemma where_id_unique t r :
  List.NoDup (List.map id t) -> In r t -> where_id (id r) t = Some r.
Proof. apply (find_unique id Z.eqb). apply Z.eqb_eq. Qed.

Lemma where_block_hash_unique t r :
  List.NoDup (List.map block_hash t) -> In r t ->
  where_block_hash (block_hash r) t = Some r.
Proof. apply (find_unique block_hash String.eqb). apply String.eqb_eq. Qed.

(** ** Block lookup by hash *)

Lemma block_fields_number n t h p : block_fields n t h p !! "number" = Some (FInt n).
Proof. destruct p; reflexivity. Qed.

Lemma block_fields_timestamp n t h p :
  block_fields n t h p !! "timestamp" = Some (FInt t).
Proof. destruct p; reflexivity. Qed.

Lemma block_fields_hash n t h p : block_fields n t h p !! "hash" = Some (FBytes h).
Proof. destruct p; reflexivity. Qed.

Lemma block_fields_parentHash n t h p :
  block_fields n t h p !! "parentHash" = FBytes <$> p.
Proof. destruct p; reflexivity. Qed.

(** What a call on a non-empty string does: one statement, whose parameter
    is the argument with every ["0x"] removed, then the shaping of the row
    found. *)
Lemma get_block_by_hash_str eps db c s full :
  Eth.get_block_by_hash eps db (PyStr (String c s)) full
  = ([SelectBlockByHash (replace "0x" "" (String c s))],
     match where_block_hash (replace "0x" "" (String c s)) (blockchain db) with
     | Some r => shape eps r
     | None => Ok None
     end).
Proof.
  unfold Eth.get_block_by_hash, select_block_by_hash, shape.
  unfold HexBytes_fromhex, py_int.
  cbn [truthy]. rewrite eqb_empty_false. cbn [negb py_replace].
  cbn [bind lift execute execute_result params_fit fst snd app].
  destruct (where_block_hash _ _) as [r|]; [|reflexivity].
  cbn [fmap option_fmap option_map].
  destruct (eps (timestamp r)); [|reflexivity].
  destruct (fromhex (block_hash r)); [|reflexivity].
  destruct (String.eqb (prev_hash r) "genesis"); [reflexivity|].
  destruct (fromhex (prev_hash r)); reflexivity.
Qed.


(** The transaction lookups by index reach [get_block_by_hash] with [None]:
    absent, and the store is not consulted. *)
Lemma get_transaction_by_index_absent eps db n i :
  Eth.get_transaction_by_block_number_and_index eps db n i = ([], Ok None) /\
  Eth.get_transaction_by_block_hash_and_index eps db n i = ([], Ok None).
Proof. split; reflexivity. Qed.

(** Inversion: a record is returned only for a non-empty string whose
    sanitised form selects a row that shapes without exception. *)
Lemma get_block_by_hash_inv eps db h full b :
  outcome (Eth.get_block_by_hash eps db h full) = Ok (Some b) ->
  exists s r, h = PyStr s /\ In r (blockchain db) /\
              block_hash r = replace "0x" "" s /\ shape eps r = Ok (Some b).
Proof.
  destruct h as [|n|[|c s]].
  - discriminate.
  - unfold Eth.get_block_by_hash. cbn [truthy]. destruct (n =? 0); discriminate.
  - discriminate.
  - rewrite get_block_by_hash_str. unfold outcome. cbn [snd].
    destruct (where_block_hash _ _) as [r|] eqn:E; [|discriminate].
    apply where_block_hash_some in E as [Hin Hh]. intros Hs.
    exists (String c s), r. auto.
Qed.

Lemma shape_inv eps r b :
  shape eps r = Ok (Some b) ->
  exists t h, eps (timestamp r) = Some t /\ fromhex (block_hash r) = Some h /\
    ((prev_hash r = "genesis" /\ b = block_fields (id r - 1) t h None) \/
     (prev_hash r <> "genesis" /\
      exists p, fromhex (prev_hash r) = Some p /\
                b = block_fields (id r - 1) t h (Some p))).
Proof.
  unfold shape. destruct (eps (timestamp r)) as [t|]; [|discriminate].
  destruct (fromhex (block_hash r)) as [h|]; [|discriminate].
  destruct (String.eqb (prev_hash r) "genesis") eqn:E.
  - apply String.eqb_eq in E. intros [= <-]. exists t, h. auto.
  - apply String.eqb_neq in E.
    destruct (fromhex (prev_hash r)) as [p|]; [|discriminate].
    intros [= <-]. exists t, h. repeat split. right. eauto.
Qed.

Example genesis_has_no_parentHash :
  outcome (Eth.get_block_by_hash scenario_epoch scenario_db (PyStr "aa") true)
  = Ok (Some (block_fields 0 1000 [Byte.xaa] None)).
Proof. reflexivity. Qed.

(** ** Block lookup by number *)

(** An integer identifier is the external number: the row of key [n + 1] is
    looked up, then its hash. *)
Lemma eth_get_block_by_number_int eps db n full :
  Eth.eth_get_block_by_number eps db (PyInt n) full
  = (h <- Eth._get_block_hash_by_number db (PyInt n) ;;
     Eth.get_block_by_hash eps db h full).
Proof.
  unfold Eth.eth_get_block_by_number. now rewrite bind_ret_l.
Qed.

Lemma rowid_int64 n : rowid n = true -> int64 n = true.
Proof.
  unfold rowid, int64. intros H. apply andb_true_iff in H as [H1 H2].
  apply Z.leb_le in H1. rewrite H2, andb_true_r. apply Z.leb_le. lia.
Qed.

Lemma get_block_hash_by_number_int db n :
  Eth._get_block_hash_by_number db (PyInt n)
  = ([SelectHashById (n + 1)],
     if int64 (n + 1)
     then Ok match where_id (n + 1) (blockchain db) with
             | Some r => PyStr (block_hash r)
             | None => PyNone
             end
     else Raise OverflowError).
Proof.
  unfold Eth._get_block_hash_by_number, select_hash_by_id, execute, execute_result.
  cbn [py_eq py_add1 lift bind params_fit fst snd app].
  destruct (int64 (n + 1)); [|reflexivity].
  destruct (where_id (n + 1) (blockchain db)); reflexivity.
Qed.

(** A string that is neither a tag nor hex text is not resolved at all:
    [block_number + 1] raises [TypeError] before any statement is sent. *)
Lemma eth_get_block_by_number_malformed eps db s full :
  is_hex s = false -> s <> "earliest" -> s <> "latest" ->
  Eth.eth_get_block_by_number eps db (PyStr s) full = ([], Raise TypeError).
Proof.
  intros Hs He Hl. unfold Eth.eth_get_block_by_number. rewrite Hs, bind_ret_l.
  unfold Eth._get_block_hash_by_number. cbn [py_eq].
  apply String.eqb_neq in He, Hl. rewrite He. cbn [py_eq]. now rewrite Hl.
Qed.

Example eth_get_block_by_number_scenario :
  outcome (Eth.eth_get_block_by_number scenario_epoch scenario_db (PyInt 0) false)
  = Ok (Some (block_fields 0 1000 [Byte.xaa] None)) /\
  outcome (Eth.eth_get_block_by_number scenario_epoch scenario_db (PyInt 1) false)
  = Ok (Some (block_fields 1 1010 [Byte.xbb] (Some [Byte.xaa]))) /\
  outcome (Eth.eth_get_block_by_number scenario_epoch scenario_db (PyStr "latest") false)
  = Ok (Some (block_fields 1 1010 [Byte.xbb] (Some [Byte.xaa]))).
Proof. repeat split. Qed.

(** ** Balances *)

Lemma scaled_sum_amount_sum l : scaled_sum l = 10 * amount_sum l.
Proof.
  unfold scaled_sum, amount_sum. induction l as [|e l IH]; [reflexivity|].
  cbn [List.map fold_right]. rewrite IH. lia.
Qed.

(** Within 64 bits the engine's sum is the mathematical one. *)
Lemma sum_step_fits terms : forall acc,
  sums_fit acc terms = true ->
  sum_step acc terms = SumInteger (acc + fold_right Z.add 0 terms).
Proof.
  induction terms as [|x l IH]; intros acc H; cbn [sum_step sums_fit fold_right] in *.
  - f_equal. lia.
  - apply andb_true_iff in H as [H Hl]. apply andb_true_iff in H as [Hx Hax].
    rewrite Hx, Hax, (IH _ Hl). f_equal. lia.
Qed.

Lemma sql_sum_fits rsz l :
  sums_fit 0 (scaled l) = true ->
  sql_sum rsz (scaled l)
  = Ok match l with [] => SqlNull | _ :: _ => SqlInteger (scaled_sum l) end.
Proof.
  intros H. destruct l as [|e l]; [reflexivity|].
  unfold sql_sum, scaled in *. cbn [List.map] in *. now rewrite (sum_step_fits _ _ H).
Qed.

Lemma get_balance_bind rsz db address v :
  Eth.get_balance rsz db address v
  = (n <- Eth._get_block_number_from_identifier db v ;;
     balance_statement rsz db address n).
Proof. reflexivity. Qed.

(** One statement is handed to [execute], whatever comes of it. *)
Lemma balance_statement_trace rsz db address n :
  trace (balance_statement rsz db address n) = [SelectBalance address n].
Proof.
  unfold balance_statement, execute_result, trace. cbn [params_fit].
  destruct (int64 n); [|reflexivity].
  destruct (select_balance rsz db address n) as [[[|[|x|z] l]|]|e]; try reflexivity.
  - cbn [bind fst snd]. destruct (x =? 0); reflexivity.
  - cbn [bind fst snd]. destruct z; reflexivity.
Qed.

(** A bound that does not fit 64 bits is refused by the driver. *)
Lemma balance_statement_overflow rsz db address n :
  int64 n = false ->
  balance_statement rsz db address n = ([SelectBalance address n], Raise OverflowError).
Proof.
  intros Hn. unfold balance_statement, execute_result. cbn [params_fit].
  now rewrite Hn.
Qed.

(** Within 64 bits the result is the encoding of the scaled sum over the
    rows with [block_id <= n]; the empty selection and the zero sum both
    give [HexBytes("0x0")]. *)
Lemma balance_statement_fits rsz db address n :
  int64 n = true -> selection_fits db address n = true ->
  balance_statement rsz db address n
  = ([SelectBalance address n], HexBytes (hex (scaled_sum (selected db address n)))).
Proof.
  intros Hn Hfit. unfold balance_statement, execute_result, select_balance.
  cbn [params_fit]. rewrite Hn. fold (selected db address n).
  fold (scaled (selected db address n)). rewrite (sql_sum_fits _ _ Hfit).
  destruct (selected db address n) as [|e l]; [reflexivity|].
  cbn [bind fst snd app].
  destruct (scaled_sum (e :: l) =? 0) eqn:E; [|reflexivity].
  apply Z.eqb_eq in E. now rewrite E.
Qed.

Lemma get_balance_trace rsz db address v t n :
  Eth._get_block_number_from_identifier db v = (t, Ok n) ->
  trace (Eth.get_balance rsz db address v) = t ++ [SelectBalance address n].
Proof.
  intros Hv. rewrite get_balance_bind, Hv. unfold trace. cbn [bind fst].
  f_equal. apply balance_statement_trace.
Qed.

Lemma get_balance_resolved_statement rsz db address v t n :
  Eth._get_block_number_from_identifier db v = (t, Ok n) ->
  outcome (Eth.get_balance rsz db address v)
  = outcome (balance_statement rsz db address n).
Proof. intros Hv. rewrite get_balance_bind, Hv. reflexivity. Qed.

(** What [get_balance] returns once the identifier is resolved to [n],
    within 64 bits. *)
Lemma get_balance_resolved rsz db address v t n :
  Eth._get_block_number_from_identifier db v = (t, Ok n) ->
  int64 n = true -> selection_fits db address n = true ->
  outcome (Eth.get_balance rsz db address v)
  = HexBytes (hex (scaled_sum (selected db address n))).
Proof.
  intros Hv Hn Hfit. rewrite (get_balance_resolved_statement _ _ _ _ _ _ Hv).
  now rewrite (balance_statement_fits _ _ _ _ Hn Hfit).
Qed.

(** When the identifier does not resolve, the exception is the result. *)
Lemma get_balance_unresolved rsz db address v t e :
  Eth._get_block_number_from_identifier db v = (t, Raise e) ->
  Eth.get_balance rsz db address v = (t, Raise e).
Proof. intros Hv. rewrite get_balance_bind. now rewrite Hv. Qed.

Lemma get_block_number_from_identifier_hex db N :
  0 <= N ->
  Eth._get_block_number_from_identifier db (PyStr (hex N)) = ([], Ok N).
Proof.
  intros HN. destruct (int16_hex N HN) as [Hh Hi].
  unfold Eth._get_block_number_from_identifier.
  rewrite py_eq_neq, Hh, Hi; [reflexivity|].
  intros [= H]. rewrite H in Hh. discriminate Hh.
Qed.

(** [get_balance] on [hex(N)] is the statement with the bound [N]. *)
Lemma get_balance_hex_statement rsz db address N :
  0 <= N ->
  Eth.get_balance rsz db address (PyStr (hex N)) = balance_statement rsz db address N.
Proof.
  intros HN. rewrite get_balance_bind, (get_block_number_from_identifier_hex _ _ HN).
  apply bind_ret_l.
Qed.

Lemma get_balance_hex rsz db address N :
  0 <= N -> int64 N = true -> selection_fits db address N = true ->
  Eth.get_balance rsz db address (PyStr (hex N))
  = ([SelectBalance address N],
     HexBytes (hex (scaled_sum (selected db address N)))).
Proof.
  intros HN Hn Hfit. rewrite (get_balance_hex_statement _ _ _ _ HN).
  now apply balance_statement_fits.
Qed.

(** A negative sum has no encoding: [hex] prints a sign that [HexBytes]
    rejects. *)
Example get_balance_negative :
  outcome (Eth.get_balance no_reals (mkStore [] [ mkBalance "0xabc" (-5) 1 1 ])
             "0xabc" (PyStr "0x1"))
  = Raise ValueError.
Proof. reflexivity. Qed.

(** A scaled amount that leaves 64 bits is a REAL to the engine: the sum is
    a [float], zero or not as the engine computes it, and [hex] of a
    non-zero [float] raises [TypeError]. *)
Example get_balance_real rsz :
  outcome (Eth.get_balance rsz (mkStore [] [ mkBalance "0xabc" (10 ^ 18) 1 1 ])
             "0xabc" (PyStr "0x1"))
  = if rsz [10 ^ 19] then HexBytes "0x0" else Raise TypeError.
Proof. vm_compute. destruct (rsz _); reflexivity. Qed.

(** ** C1: the record of an external number *)

(** C1, as stated, fails on a record stored under the empty hash: the hashes
    are pairwise distinct, the record has storage key 1 and its hash decodes
    (to no bytes), but the call with 0 is answered absent, because
    [get_block_by_hash] treats the empty hash it is handed as no hash. *)
Lemma eth_get_block_by_number_counterexample :
  List.NoDup (List.map block_hash (blockchain empty_hash_db)) /\
  (exists r, In r (blockchain empty_hash_db) /\ id r = 1 /\
             fromhex (block_hash r) = Some [] /\
             scenario_epoch (timestamp r) = Some 1000) /\
  Eth.eth_get_block_by_number scenario_epoch empty_hash_db (PyInt (1 - 1)) false
  = ([SelectHashById 1], Ok None).
Proof.
  split; [|split].
  - repeat constructor. intros [].
  - eexists. split; [left; reflexivity|]. repeat split.
  - reflexivity.
Qed.

(** C1, amended.  On a store whose storage keys are unique (the primary
    key) and whose block hashes are pairwise distinct, for every stored
    record whose [block_hash] is non-empty and decodes, whose timestamp the
    engine converts and whose [prev_hash] is the sentinel or decodes,
    [eth_get_block_by_number] with the integer storage key minus one returns
    that record's output: ["number"] is the key minus one, ["hash"] the
    decoded [block_hash], ["timestamp"] the epoch seconds, ["parentHash"]
    absent for the sentinel and the decoded [prev_hash] otherwise. *)
Theorem eth_get_block_by_number_record eps (db : Store) (r : BlockRow)
        (full : bool) (t : Z) (h : list Byte.byte) :
  List.NoDup (List.map id (blockchain db)) ->
  List.NoDup (List.map block_hash (blockchain db)) ->
  In r (blockchain db) ->
  block_hash r <> "" ->
  fromhex (block_hash r) = Some h ->
  eps (timestamp r) = Some t ->
  (prev_hash r = "genesis" \/ fromhex (prev_hash r) <> None) ->
  exists b : BlockData,
    outcome (Eth.eth_get_block_by_number eps db (PyInt (id r - 1)) full)
    = Ok (Some b) /\
    b !! "number" = Some (FInt (id r - 1)) /\
    b !! "hash" = Some (FBytes h) /\
    b !! "timestamp" = Some (FInt t) /\
    b !! "parentHash" = (if String.eqb (prev_hash r) "genesis" then None
                         else FBytes <$> fromhex (prev_hash r)).
Proof.
  intros Hid Hhash Hin Hne Hh Ht Hp.
  exists (block_fields (id r - 1) t h
            (if String.eqb (prev_hash r) "genesis" then None
             else fromhex (prev_hash r))).
  rewrite block_fields_number, block_fields_hash, block_fields_timestamp,
    block_fields_parentHash.
  split; [|repeat split; now destruct (String.eqb (prev_hash r) "genesis")].
  rewrite eth_get_block_by_number_int, get_block_hash_by_number_int.
  replace (id r - 1 + 1) with (id r) by lia.
  rewrite (rowid_int64 _ (id_rowid r)).
  rewrite (where_id_unique _ _ Hid Hin). unfold outcome. cbn [bind snd].
  destruct (block_hash r) as [|c s] eqn:Eh; [congruence|].
  rewrite get_block_by_hash_str, (fromhex_replace _ _ Hh), <- Eh.
  rewrite (where_block_hash_unique _ _ Hhash Hin).
  unfold shape. cbn [snd]. rewrite Ht, Eh, Hh.
  destruct (String.eqb (prev_hash r) "genesis") eqn:Eg; [reflexivity|].
  destruct Hp as [Hp|Hp]; [apply String.eqb_neq in Eg; contradiction|].
  destruct (fromhex (prev_hash r)); [reflexivity | contradiction].
Qed.

(** The spec's scenario: number 1 is the child record. *)
Lemma eth_get_block_by_number_record_witness :
  exists b : BlockData,
    outcome (Eth.eth_get_block_by_number scenario_epoch scenario_db (PyInt (2 - 1)) false)
    = Ok (Some b) /\
    b !! "number" = Some (FInt (2 - 1)) /\
    b !! "hash" = Some (FBytes [Byte.xbb]) /\
    b !! "timestamp" = Some (FInt 1010) /\
    b !! "parentHash" = Some (FBytes [Byte.xaa]).
Proof.
  apply (eth_get_block_by_number_record scenario_epoch scenario_db
           (mkBlock 2 "1970-01-01 00:16:50" "bb" "aa" "[]") false 1010 [Byte.xbb]).
  - repeat constructor; cbn; intuition discriminate.
  - repeat constructor; cbn; intuition discriminate.
  - right. left. reflexivity.
  - discriminate.
  - reflexivity.
  - reflexivity.
  - right. discriminate.
Defined.

(** ** C2: the balance as of a block *)

(** The specified selection is the statement's with the bound one higher. *)
Lemma balance_as_specified_selected db address N :
  balance_as_specified db address N = scaled_sum (selected db address (N + 1)).
Proof.
  unfold balance_as_specified, scaled_sum, selected. do 2 f_equal.
  apply List.filter_ext. intros e. unfold balance_where.
  now rewrite <- !andb_assoc, (andb_comm (currency_type e =? 1)).
Qed.

(** The code bounds [block_id] by the external number itself, so within
    64 bits it returns the specified balance of the block before. *)
Lemma get_balance_one_block_behind rsz db address v t n :
  Eth._get_block_number_from_identifier db v = (t, Ok n) ->
  int64 n = true -> selection_fits db address n = true ->
  outcome (Eth.get_balance rsz db address v)
  = HexBytes (hex (balance_as_specified db address (n - 1))).
Proof.
  intros Hv Hn Hfit. rewrite (get_balance_resolved _ _ _ _ _ _ Hv Hn Hfit).
  rewrite balance_as_specified_selected. now replace (n - 1 + 1) with n by lia.
Qed.

(** In the claim's words: for a natural [N], [get_balance(addr, hex(N))]
    sends the bound [N] and encodes the specified balance of [N - 1]. *)
Lemma get_balance_hex_behind rsz db address N :
  0 <= N -> int64 N = true -> selection_fits db address N = true ->
  Eth.get_balance rsz db address (PyStr (hex N))
  = ([SelectBalance address N],
     HexBytes (hex (balance_as_specified db address (N - 1)))).
Proof.
  intros HN Hn Hfit.
  rewrite (get_balance_hex _ _ _ _ HN Hn Hfit), balance_as_specified_selected.
  now replace (N - 1 + 1) with N by lia.
Qed.

Lemma get_balance_earliest rsz db address :
  selection_fits db address 0 = true ->
  Eth.get_balance rsz db address (PyStr "earliest")
  = ([SelectBalance address 0],
     HexBytes (hex (balance_as_specified db address (0 - 1)))).
Proof.
  intros Hfit. rewrite get_balance_bind.
  change (Eth._get_block_number_from_identifier db (PyStr "earliest"))
    with (@ret Z 0).
  rewrite bind_ret_l, (balance_statement_fits _ _ _ 0 eq_refl Hfit).
  now rewrite balance_as_specified_selected.
Qed.

(** C2.  The claim does not hold of the code: for every natural [N] within
    64 bits, over a selection whose running sums stay within 64 bits,
    [get_balance(addr, hex(N))] bounds [block_id] by [N], not by [N + 1],
    and so encodes the specified balance of [N - 1]; ["earliest"] bounds it
    by 0.  In the scenario the account holds one entry of amount 5 at
    [block_id] 1, so its specified balance as of external number 0 is 50,
    while [get_balance] with [hex(0)], and with ["earliest"], selects no row
    and returns the zero quantity. *)
Theorem get_balance_misses_block :
  (forall rsz (db : Store) (address : string) (N : N),
     int64 (Z.of_N N) = true -> selection_fits db address (Z.of_N N) = true ->
     Eth.get_balance rsz db address (PyStr (hex (Z.of_N N)))
     = ([SelectBalance address (Z.of_N N)],
        HexBytes (hex (balance_as_specified db address (Z.of_N N - 1))))) /\
  (forall rsz (db : Store) (address : string),
     selection_fits db address 0 = true ->
     Eth.get_balance rsz db address (PyStr "earliest")
     = ([SelectBalance address 0],
        HexBytes (hex (balance_as_specified db address (0 - 1))))) /\
  balance_as_specified scenario_db "0xabc" 0 = 50 /\
  HexBytes (hex 50) = Ok [Byte.x32] /\
  (forall rsz,
     Eth.get_balance rsz scenario_db "0xabc" (PyStr (hex 0))
     = ([SelectBalance "0xabc" 0], Ok [Byte.x00])) /\
  (forall rsz,
     Eth.get_balance rsz scenario_db "0xabc" (PyStr "earliest")
     = ([SelectBalance "0xabc" 0], Ok [Byte.x00])).
Proof.
  split; [|split].
  - intros rsz db address N. apply get_balance_hex_behind. lia.
  - apply get_balance_earliest.
  - repeat split.
Qed.

Lemma get_balance_misses_block_witness :
  int64 (Z.of_N 2) = true /\ selection_fits scenario_db "0xabc" (Z.of_N 2) = true /\
  Eth.get_balance no_reals scenario_db "0xabc" (PyStr (hex (Z.of_N 2)))
  = ([SelectBalance "0xabc" (Z.of_N 2)],
     HexBytes (hex (balance_as_specified scenario_db "0xabc" (Z.of_N 2 - 1)))) /\
  selection_fits scenario_db "0xabc" 0 = true /\
  Eth.get_balance no_reals scenario_db "0xabc" (PyStr "earliest")
  = ([SelectBalance "0xabc" 0],
     HexBytes (hex (balance_as_specified scenario_db "0xabc" (0 - 1)))).
Proof.
  pose proof get_balance_misses_block as (H1 & H2 & _).
  split; [reflexivity|]. split; [reflexivity|].
  split; [apply H1; reflexivity|]. split; [reflexivity|].
  apply H2. reflexivity.
Defined.

(** ** C3: normalising the identifier of [eth_get_block_by_number] *)

(** C3, as stated, fails at the unprefixed decimal string ["10"]: [is_hex]
    accepts it, so it is read in base 16 and names external number 16, not
    10. *)
Lemma eth_get_block_by_number_decimal_counterexample :
  is_hex "10" = true /\
  Eth.eth_get_block_by_number scenario_epoch sparse_db (PyStr "10") false
  = ([SelectHashById 17; SelectBlockByHash "10"],
     Ok (Some (block_fields 16 1010 [Byte.x10] (Some [Byte.x0f])))) /\
  Eth.eth_get_block_by_number scenario_epoch sparse_db (PyInt 10) false
  = ([SelectHashById 11; SelectBlockByHash "0a"],
     Ok (Some (block_fields 10 1000 [Byte.x0a] (Some [Byte.x09])))).
Proof. repeat split. Qed.

(** C3, amended.  Every string that [is_hex] accepts, with or without the
    [0x] prefix, is parsed as a base-16 integer: digits alone denote their
    base-16 value (["10"] is 16), and so do the digits behind a prefix.  An
    integer is used as it is as the external block number: the row of
    storage key [n + 1] is looked up. *)
Theorem eth_get_block_by_number_normalization eps (db : Store) (full : bool) :
  (forall s, is_hex s = true ->
     Eth.eth_get_block_by_number eps db (PyStr s) full
     = (n <- lift (int16 s) ;; Eth.eth_get_block_by_number eps db (PyInt n) full)) /\
  (forall s, all_hex s = true -> s <> "" -> int16 s = Ok (hex_value s)) /\
  (forall c r, is_x c = true -> all_hex r = true -> r <> "" ->
     int16 (String "0" (String c r)) = Ok (hex_value r)) /\
  (forall n,
     Eth.eth_get_block_by_number eps db (PyInt n) full
     = (h <- Eth._get_block_hash_by_number db (PyInt n) ;;
        Eth.get_block_by_hash eps db h full) /\
     trace (Eth._get_block_hash_by_number db (PyInt n)) = [SelectHashById (n + 1)]).
Proof.
  split; [|split; [|split]].
  - intros s Hs. unfold Eth.eth_get_block_by_number at 1. rewrite Hs.
    destruct (int16 s) as [n|e]; [|reflexivity].
    rewrite !bind_lift_Ok, bind_ret_l.
    unfold Eth.eth_get_block_by_number. now rewrite bind_ret_l.
  - apply int16_all_hex.
  - intros c r Hx Hr Hne. rewrite (int16_prefixed _ _ Hx Hr).
    destruct r; [congruence | reflexivity].
  - intros n. split; [apply eth_get_block_by_number_int|].
    now rewrite get_block_hash_by_number_int.
Qed.

Lemma eth_get_block_by_number_normalization_witness :
  is_hex "10" = true /\
  Eth.eth_get_block_by_number scenario_epoch sparse_db (PyStr "10") false
  = (n <- lift (int16 "10") ;;
     Eth.eth_get_block_by_number scenario_epoch sparse_db (PyInt n) false) /\
  all_hex "10" = true /\ "10" <> "" /\ int16 "10" = Ok (hex_value "10") /\
  hex_value "10" = 16 /\
  is_x "x" = true /\ all_hex "1f" = true /\ "1f" <> "" /\
  int16 "0x1f" = Ok (hex_value "1f").
Proof.
  pose proof (eth_get_block_by_number_normalization scenario_epoch sparse_db false)
    as (H1 & H2 & H3 & _).
  split; [reflexivity|]. split; [apply H1; reflexivity|].
  split; [reflexivity|]. split; [discriminate|].
  split; [apply H2; [reflexivity | discriminate]|].
  split; [reflexivity|]. split; [reflexivity|]. split; [reflexivity|].
  split; [discriminate|]. apply (H3 "x"%char "1f"); [reflexivity | reflexivity | discriminate].
Defined.

(** ** C4: the parent link *)

(** The row the statement selects shapes into a record when its timestamp
    converts and its hash decodes: without ["parentHash"] for the sentinel,
    with the decoded [prev_hash] otherwise; a [prev_hash] that is neither
    raises [ValueError]. *)
Lemma get_block_by_hash_selected eps db s r full t bs :
  s <> "" ->
  where_block_hash (replace "0x" "" s) (blockchain db) = Some r ->
  eps (timestamp r) = Some t ->
  fromhex (block_hash r) = Some bs ->
  outcome (Eth.get_block_by_hash eps db (PyStr s) full)
  = if String.eqb (prev_hash r) "genesis"
    then Ok (Some (block_fields (id r - 1) t bs None))
    else match fromhex (prev_hash r) with
         | Some p => Ok (Some (block_fields (id r - 1) t bs (Some p)))
         | None => Raise ValueError
         end.
Proof.
  intros Hne Hr Ht Hh. destruct s as [|c s]; [congruence|].
  rewrite get_block_by_hash_str, Hr. unfold outcome, shape. cbn [snd].
  now rewrite Ht, Hh.
Qed.

(** C4.  A stored record whose timestamp converts and whose hash decodes is
    returned by [get_block_by_hash] when the statement selects it: if its
    [prev_hash] is the genesis sentinel, the record is returned and has no
    ["parentHash"] key; otherwise, if [prev_hash] decodes, the record is
    returned with ["parentHash"] the byte-decoded [prev_hash].  And for
    every record that is returned: no ["parentHash"] key when the stored
    [prev_hash] is the sentinel, else the decoded [prev_hash], which is the
    decoded [block_hash] of any row whose hash the link names (the
    predecessor in a well-formed chain). *)
Theorem get_block_by_hash_parentHash eps (db : Store) (full : bool) :
  (forall s r t bs,
     s <> "" ->
     where_block_hash (replace "0x" "" s) (blockchain db) = Some r ->
     eps (timestamp r) = Some t ->
     fromhex (block_hash r) = Some bs ->
     (prev_hash r = "genesis" ->
        exists b, outcome (Eth.get_block_by_hash eps db (PyStr s) full) = Ok (Some b) /\
                  b !! "hash" = Some (FBytes bs) /\
                  b !! "parentHash" = None) /\
     (prev_hash r <> "genesis" ->
        forall p, fromhex (prev_hash r) = Some p ->
        exists b, outcome (Eth.get_block_by_hash eps db (PyStr s) full) = Ok (Some b) /\
                  b !! "hash" = Some (FBytes bs) /\
                  b !! "parentHash" = Some (FBytes p))) /\
  (forall h b,
     outcome (Eth.get_block_by_hash eps db h full) = Ok (Some b) ->
     exists r, In r (blockchain db) /\
       b !! "number" = Some (FInt (id r - 1)) /\
       b !! "hash" = FBytes <$> fromhex (block_hash r) /\
       (prev_hash r = "genesis" -> b !! "parentHash" = None) /\
       (prev_hash r <> "genesis" ->
          (exists p, fromhex (prev_hash r) = Some p /\
                     b !! "parentHash" = Some (FBytes p)) /\
          (forall q, In q (blockchain db) -> id q = id r - 1 ->
                     block_hash q = prev_hash r ->
                     b !! "parentHash" = FBytes <$> fromhex (block_hash q)))).
Proof.
  split.
  - intros s r t bs Hne Hr Ht Hh.
    pose proof (get_block_by_hash_selected eps db s r full t bs Hne Hr Ht Hh) as Ho.
    split.
    + intros Hg. apply String.eqb_eq in Hg. rewrite Hg in Ho.
      eexists. split; [exact Ho|].
      now rewrite block_fields_hash, block_fields_parentHash.
    + intros Hg p Hp. apply String.eqb_neq in Hg. rewrite Hg, Hp in Ho.
      eexists. split; [exact Ho|].
      now rewrite block_fields_hash, block_fields_parentHash.
  - intros h b H. apply get_block_by_hash_inv in H as (s & r & -> & Hin & _ & Hs).
    apply shape_inv in Hs as (t & hb & _ & Hh & Hcase). exists r.
    split; [assumption|].
    destruct Hcase as [[Hg ->]|[Hg (p & Hp & ->)]];
      rewrite block_fields_number, block_fields_hash, block_fields_parentHash, Hh;
      (split; [reflexivity|]); (split; [reflexivity|]); split.
    + reflexivity.
    + intros Hng. contradiction.
    + intros Hs. contradiction.
    + intros _. split; [exists p; auto|].
      intros q _ _ ->. now rewrite Hp.
Qed.

(** The genesis record of the scenario is returned without ["parentHash"],
    its child with the decoded hash of the genesis record. *)
Lemma get_block_by_hash_parentHash_witness :
  (exists b, outcome (Eth.get_block_by_hash scenario_epoch scenario_db
                        (PyStr "0xaa") true) = Ok (Some b) /\
             b !! "hash" = Some (FBytes [Byte.xaa]) /\
             b !! "parentHash" = None) /\
  (exists b, outcome (Eth.get_block_by_hash scenario_epoch scenario_db
                        (PyStr "0xbb") true) = Ok (Some b) /\
             b !! "hash" = Some (FBytes [Byte.xbb]) /\
             b !! "parentHash" = Some (FBytes [Byte.xaa])).
Proof.
  pose proof (get_block_by_hash_parentHash scenario_epoch scenario_db true)
    as [Hsel _].
  split.
  - apply (Hsel "0xaa" (mkBlock 1 "1970-01-01 00:16:40" "aa" "genesis" "[]")
             1000 [Byte.xaa]); [discriminate | reflexivity | reflexivity
                                | reflexivity | reflexivity].
  - apply (Hsel "0xbb" (mkBlock 2 "1970-01-01 00:16:50" "bb" "aa" "[]")
             1010 [Byte.xbb]); [discriminate | reflexivity | reflexivity
                                | reflexivity | discriminate | reflexivity].
Defined.

(** ** C5: the block number of [get_balance] *)

(** C5, as stated, fails at the decimal string ["10"]: it does not fall
    through to the current head (external number 1 here) but is read as the
    hex number 16, which is also the bound of the balance query. *)
Lemma get_block_number_from_identifier_counterexample :
  Eth._get_block_number_from_identifier scenario_db (PyStr "10") = ([], Ok 16) /\
  Eth.block_number scenario_db = ([SelectLastNumber], Ok 1) /\
  trace (Eth.get_balance no_reals scenario_db "0xabc" (PyStr "10"))
  = [SelectBalance "0xabc" 16].
Proof. repeat split. Qed.

(** C5, amended.  [get_balance] resolves its block identifier with
    [_get_block_number_from_identifier]: ["earliest"] is 0; every string
    [is_hex] accepts (prefixed or not, so also a string of decimal digits) is
    its base-16 value; every other value (["latest"], any other non-hex
    string, a non-string) is the result of [block_number]. *)
Theorem get_block_number_from_identifier_rule (db : Store) :
  Eth._get_block_number_from_identifier db (PyStr "earliest") = ([], Ok 0) /\
  (forall s, is_hex s = true ->
     Eth._get_block_number_from_identifier db (PyStr s) = lift (int16 s)) /\
  (forall v, v <> PyStr "earliest" ->
     (forall s, v = PyStr s -> is_hex s = false) ->
     Eth._get_block_number_from_identifier db v = Eth.block_number db) /\
  (forall rsz address v t n,
     Eth._get_block_number_from_identifier db v = (t, Ok n) ->
     trace (Eth.get_balance rsz db address v) = t ++ [SelectBalance address n]).
Proof.
  split; [reflexivity|]. split; [|split].
  - intros s Hs. unfold Eth._get_block_number_from_identifier.
    rewrite py_eq_neq, Hs; [reflexivity|].
    intros [= ->]. discriminate Hs.
  - intros v Hv Hs. unfold Eth._get_block_number_from_identifier.
    rewrite (py_eq_neq _ _ Hv). destruct v as [|n|s]; try reflexivity.
    now rewrite (Hs s eq_refl).
  - intros rsz address v t n Hv. now apply get_balance_trace.
Qed.

Lemma get_block_number_from_identifier_rule_witness :
  is_hex "0x1" = true /\
  Eth._get_block_number_from_identifier scenario_db (PyStr "0x1") = ([], Ok 1) /\
  PyStr "latest" <> PyStr "earliest" /\
  (forall s, PyStr "latest" = PyStr s -> is_hex s = false) /\
  Eth._get_block_number_from_identifier scenario_db (PyStr "latest")
  = Eth.block_number scenario_db /\
  trace (Eth.get_balance no_reals scenario_db "0xabc" (PyStr "0x1"))
  = [] ++ [SelectBalance "0xabc" 1].
Proof.
  pose proof (get_block_number_from_identifier_rule scenario_db)
    as (_ & H2 & H3 & H4).
  assert (Hl : forall s, PyStr "latest" = PyStr s -> is_hex s = false)
    by (intros s [= <-]; reflexivity).
  split; [reflexivity|]. split; [apply (H2 "0x1"); reflexivity|].
  split; [discriminate|]. split; [exact Hl|].
  split; [apply H3; [discriminate | exact Hl]|].
  apply H4. apply (H2 "0x1"). reflexivity.
Defined.

(** ** C6: the current block number *)

(** C6.  On a store without blockchain records [block_number] returns the
    number 0 (a value, not an exception); on a non-empty store it returns
    the greatest storage key minus one. *)
Theorem block_number_current (db : Store) :
  (blockchain db = [] -> outcome (Eth.block_number db) = Ok 0) /\
  (blockchain db <> [] ->
   exists r, In r (blockchain db) /\
             (forall r', In r' (blockchain db) -> id r' <= id r) /\
             outcome (Eth.block_number db) = Ok (id r - 1)).
Proof.
  unfold Eth.block_number, select_last_number. split.
  - intros ->. reflexivity.
  - intros Hne. destruct (order_by_id_desc_limit_1_spec _ Hne) as (r & Hr & Hin & Hmax).
    exists r. rewrite Hr. repeat split; assumption.
Qed.

Lemma block_number_current_witness :
  blockchain scenario_db <> [] /\
  exists r, In r (blockchain scenario_db) /\
            (forall r', In r' (blockchain scenario_db) -> id r' <= id r) /\
            outcome (Eth.block_number scenario_db) = Ok (id r - 1).
Proof.
  split; [discriminate|].
  apply (proj2 (block_number_current scenario_db)). discriminate.
Defined.

Example block_number_scenario : outcome (Eth.block_number scenario_db) = Ok 1.
Proof. reflexivity. Qed.

(** ** C7: the prefix is optional *)

(** C7, as stated, fails at the empty string [s]: ["0x"] is sanitised to
    [""] and selects a record stored under the empty hash, while [""] itself
    is answered absent before any statement is sent. *)
Lemma prefix_insensitive_counterexample :
  contains "0x" "" = false /\
  outcome (Eth.get_block_by_hash scenario_epoch empty_hash_db (PyStr ("0x" +:+ "")) true)
  = Ok (Some (block_fields 0 1000 [] None)) /\
  outcome (Eth.get_block_by_hash scenario_epoch empty_hash_db (PyStr "") true)
  = Ok None /\
  outcome (Eth.get_block_by_hash scenario_epoch empty_hash_db (PyStr ("0x" +:+ "")) true)
  <> outcome (Eth.get_block_by_hash scenario_epoch empty_hash_db (PyStr "") true).
Proof.
  assert (H1 : outcome (Eth.get_block_by_hash scenario_epoch empty_hash_db
                          (PyStr ("0x" +:+ "")) true)
               = Ok (Some (block_fields 0 1000 [] None))) by reflexivity.
  assert (H2 : outcome (Eth.get_block_by_hash scenario_epoch empty_hash_db
                          (PyStr "") true) = Ok None) by reflexivity.
  split; [reflexivity|]. split; [exact H1|]. split; [exact H2|].
  rewrite H1, H2. discriminate.
Qed.

(** C7, amended.  For every string [s] without the substring ["0x"] that is
    non-empty, or on a store without an empty [block_hash],
    [get_block_by_hash("0x" + s)] and [get_block_by_hash(s)] return the same
    result. *)
Theorem get_block_by_hash_prefix_insensitive eps (db : Store) (s : string) (full : bool) :
  contains "0x" s = false ->
  (s <> "" \/ forall r, In r (blockchain db) -> block_hash r <> "") ->
  outcome (Eth.get_block_by_hash eps db (PyStr ("0x" +:+ s)) full)
  = outcome (Eth.get_block_by_hash eps db (PyStr s) full).
Proof.
  intros Hc Hne. change ("0x" +:+ s) with (String "0" (String "x" s)).
  rewrite get_block_by_hash_str.
  change (String "0" (String "x" s)) with ("0x" +:+ s).
  rewrite replace_0x_prefixed, (replace_0x_absent s Hc).
  destruct s as [|c s].
  - destruct Hne as [Hne|Hne]; [congruence|].
    unfold outcome. cbn [snd]. now rewrite where_block_hash_none.
  - rewrite get_block_by_hash_str, (replace_0x_absent _ Hc). reflexivity.
Qed.

Lemma get_block_by_hash_prefix_insensitive_witness :
  contains "0x" "abc123" = false /\
  ("abc123" <> "" \/ forall r, In r (blockchain abc123_db) -> block_hash r <> "") /\
  outcome (Eth.get_block_by_hash scenario_epoch abc123_db (PyStr ("0x" +:+ "abc123")) true)
  = outcome (Eth.get_block_by_hash scenario_epoch abc123_db (PyStr "abc123") true) /\
  outcome (Eth.get_block_by_hash scenario_epoch abc123_db (PyStr "abc123") true)
  = Ok (Some (block_fields 0 1000 [Byte.xab; Byte.xc1; Byte.x23] None)).
Proof.
  split; [reflexivity|]. split; [left; discriminate|]. split; [|reflexivity].
  apply (get_block_by_hash_prefix_insensitive scenario_epoch abc123_db "abc123" true).
  - reflexivity.
  - left. discriminate.
Defined.

(** ** C8: what is matched against the [block_hash] column *)

(** What the code does: the statement's parameter is the argument with
    every occurrence of ["0x"] removed, wherever it stands. *)
Lemma get_block_by_hash_matches eps db h full :
  h <> "" ->
  trace (Eth.get_block_by_hash eps db (PyStr h) full)
  = [SelectBlockByHash (replace "0x" "" h)].
Proof.
  destruct h as [|c s]; [congruence|]. intros _.
  now rewrite get_block_by_hash_str.
Qed.

(** With a leading prefix only, that is the argument without its prefix. *)
Lemma get_block_by_hash_matches_prefixed eps db s full :
  contains "0x" s = false ->
  trace (Eth.get_block_by_hash eps db (PyStr ("0x" +:+ s)) full)
  = [SelectBlockByHash s].
Proof.
  intros Hc. rewrite get_block_by_hash_matches by discriminate.
  now rewrite replace_0x_prefixed, replace_0x_absent.
Qed.

(** C8.  The claim does not hold of the code: for every non-empty argument
    the column is matched against the argument with every ["0x"] removed.
    The argument ["ab0xcd"] has no leading prefix, yet its interior ["0x"]
    is removed: the column is matched against ["abcd"], not against
    ["ab0xcd"], and the record stored under ["abcd"] is returned. *)
Theorem get_block_by_hash_interior_0x :
  (forall eps (db : Store) (c : ascii) (s : string) (full : bool),
     trace (Eth.get_block_by_hash eps db (PyStr (String c s)) full)
     = [SelectBlockByHash (replace "0x" "" (String c s))]) /\
  replace "0x" "" "ab0xcd" = "abcd" /\
  Eth.get_block_by_hash scenario_epoch abcd_db (PyStr "ab0xcd") true
  = ([SelectBlockByHash "abcd"],
     Ok (Some (block_fields 0 1000 [Byte.xab; Byte.xcd] None))).
Proof.
  split; [|split; reflexivity].
  intros eps db c s full. apply get_block_by_hash_matches. discriminate.
Qed.

(** ** C9: absent results *)





(** ** C10: a zero sum and no rows are not told apart *)

(** C10, as stated, fails where a running sum leaves 64 bits: the four
    amounts of the account sum to exactly 0, but the engine adds them in
    scan order, the second partial sum overflows and the statement fails,
    while an address without rows gets the zero quantity. *)
Lemma get_balance_zero_sum_counterexample :
  selected overflow_db "0xabc" 1 <> [] /\
  amount_sum (selected overflow_db "0xabc" 1) = 0 /\
  selected overflow_db "0xdef" 1 = [] /\
  Eth.get_balance no_reals overflow_db "0xabc" (PyStr "0x1")
  = ([SelectBalance "0xabc" 1], Raise OperationalError) /\
  Eth.get_balance no_reals overflow_db "0xdef" (PyStr "0x1")
  = ([SelectBalance "0xdef" 1], Ok [Byte.x00]).
Proof.
  split; [discriminate|]. split; [reflexivity|]. split; [reflexivity|].
  split; vm_compute; reflexivity.
Qed.

(** C10, amended.  Under an identifier that resolves to a bound [n] within
    64 bits, an address whose selected rows are at least one, have scaled
    amounts and running sums within 64 bits and amounts summing to exactly
    0 gets the canonical zero quantity [HexBytes("0x0")], the same result
    as an address with no selected row. *)
Theorem get_balance_zero_sum rsz (db : Store) (v : PyVal) (t : list Stmt) (n : Z)
        (address address' : string) :
  Eth._get_block_number_from_identifier db v = (t, Ok n) ->
  int64 n = true ->
  selected db address n <> [] ->
  selection_fits db address n = true ->
  amount_sum (selected db address n) = 0 ->
  selected db address' n = [] ->
  outcome (Eth.get_balance rsz db address v) = HexBytes "0x0" /\
  outcome (Eth.get_balance rsz db address' v) = HexBytes "0x0" /\
  HexBytes "0x0" = Ok [Byte.x00].
Proof.
  intros Hv Hn _ Hfit Hsum Hnone.
  assert (Hfit' : selection_fits db address' n = true).
  { unfold selection_fits. now rewrite Hnone. }
  rewrite (get_balance_resolved _ _ address _ _ _ Hv Hn Hfit),
    (get_balance_resolved _ _ address' _ _ _ Hv Hn Hfit').
  rewrite Hnone, scaled_sum_amount_sum, Hsum. repeat split.
Qed.

Lemma get_balance_zero_sum_witness :
  outcome (Eth.get_balance no_reals zero_sum_db "0xabc" (PyStr "0x1"))
  = HexBytes "0x0" /\
  outcome (Eth.get_balance no_reals zero_sum_db "0xdef" (PyStr "0x1"))
  = HexBytes "0x0" /\
  HexBytes "0x0" = Ok [Byte.x00].
Proof.
  apply (get_balance_zero_sum no_reals zero_sum_db (PyStr "0x1") [] 1
           "0xabc" "0xdef").
  - reflexivity.
  - reflexivity.
  - discriminate.
  - reflexivity.
  - reflexivity.
  - reflexivity.
Defined.

(* ===================================================================== *)
(** * Further properties of the code *)
(* ===================================================================== *)

(** ** Equivalent identifiers *)

(** X1.  [eth_get_block_by_number] treats the tag ["earliest"] as the
    integer 0, and the text [hex(N)] of a natural number as the integer [N]:
    the same statements are sent and the same result is returned. *)
Theorem eth_get_block_by_number_same_request eps (db : Store) (full : bool) :
  Eth.eth_get_block_by_number eps db (PyStr "earliest") full
  = Eth.eth_get_block_by_number eps db (PyInt 0) full /\
  forall N : N,
    Eth.eth_get_block_by_number eps db (PyStr (hex (Z.of_N N))) full
    = Eth.eth_get_block_by_number eps db (PyInt (Z.of_N N)) full.
Proof.
  split.
  - unfold Eth.eth_get_block_by_number.
    change (is_hex "earliest") with false. cbv iota. rewrite !bind_ret_l.
    reflexivity.
  - intros N. destruct (int16_hex (Z.of_N N) ltac:(lia)) as [Hh Hi].
    unfold Eth.eth_get_block_by_number at 1. rewrite Hh, Hi.
    rewrite !bind_lift_Ok, bind_ret_l.
    unfold Eth.eth_get_block_by_number. now rewrite bind_ret_l.
Qed.

(** ** Misses *)



(** X3.  An integer [n] whose storage key [n + 1] is in no row is answered
    after the one statement that looks the key up, and the hash lookup is
    not sent: absent when the key fits 64 bits, [OverflowError] from the
    driver when it does not. *)
Theorem eth_get_block_by_number_missing eps (db : Store) (n : Z) (full : bool) :
  (forall r, In r (blockchain db) -> id r <> n + 1) ->
  Eth.eth_get_block_by_number eps db (PyInt n) full
  = ([SelectHashById (n + 1)],
     if int64 (n + 1) then Ok None else Raise OverflowError).
Proof.
  intros Hno. rewrite eth_get_block_by_number_int, get_block_hash_by_number_int.
  unfold where_id. rewrite find_absent.
  - destruct (int64 (n + 1)); reflexivity.
  - intros r Hr. apply Z.eqb_neq. now apply Hno.
Qed.

Lemma eth_get_block_by_number_missing_witness :
  Eth.eth_get_block_by_number scenario_epoch scenario_db (PyInt 5) false
  = ([SelectHashById (5 + 1)],
     if int64 (5 + 1) then Ok None else Raise OverflowError).
Proof.
  apply eth_get_block_by_number_missing.
  intros r [<-|[<-|[]]]; discriminate.
Defined.

(** ** Exceptions of the identifier *)

(** X4.  [eth_get_block_by_number] raises [TypeError] before any statement
    is sent on [None] and on every string that is neither a tag nor hex
    text. *)
Theorem eth_get_block_by_number_type_error eps (db : Store) (full : bool) :
  Eth.eth_get_block_by_number eps db PyNone full = ([], Raise TypeError) /\
  forall s, is_hex s = false -> s <> "earliest" -> s <> "latest" ->
    Eth.eth_get_block_by_number eps db (PyStr s) full = ([], Raise TypeError).
Proof.
  split; [reflexivity|]. intros s. apply eth_get_block_by_number_malformed.
Qed.

Lemma eth_get_block_by_number_type_error_witness :
  is_hex "1.5" = false /\
  Eth.eth_get_block_by_number scenario_epoch scenario_db (PyStr "1.5") false
  = ([], Raise TypeError).
Proof.
  split; [reflexivity|].
  apply (eth_get_block_by_number_type_error scenario_epoch scenario_db false);
    [reflexivity | discriminate | discriminate].
Defined.

Lemma hex_digit_range c d : hex_digit c = Some d -> 0 <= d < 16.
Proof.
  destruct c as [[] [] [] [] [] [] [] []]; vm_compute; intros H;
    first [discriminate H | injection H as <-; split; [discriminate | reflexivity]].
Qed.

Lemma hex_value_from_nonneg s : forall a, 0 <= a -> 0 <= hex_value_from a s.
Proof.
  induction s as [|c s IH]; intros a Ha; cbn [hex_value_from]; [assumption|].
  destruct (hex_digit c) as [d|] eqn:Hd; [|assumption].
  apply IH. apply hex_digit_range in Hd. lia.
Qed.

Lemma is_x_cases c : is_x c = true -> c = "x"%char \/ c = "X"%char.
Proof.
  unfold is_x. intros H. apply orb_true_iff in H as [H|H];
    apply Ascii.eqb_eq in H; auto.
Qed.

(** X5.  Text that [is_hex] accepts resolves to a number that is never
    negative, the same for [eth_get_block_by_number] and for the balance
    bound; the only exception is a bare prefix (["0x"] or ["0X"]), on which
    both methods raise [ValueError] before any statement is sent. *)
Theorem hex_identifier_resolution eps rsz (db : Store) (address : string)
        (full : bool) (s : string) :
  is_hex s = true ->
  (exists n, 0 <= n /\
     Eth.eth_get_block_by_number eps db (PyStr s) full
     = Eth.eth_get_block_by_number eps db (PyInt n) full /\
     Eth._get_block_number_from_identifier db (PyStr s) = ([], Ok n)) \/
  ((s = "0x" \/ s = "0X") /\
   Eth.eth_get_block_by_number eps db (PyStr s) full = ([], Raise ValueError) /\
   Eth.get_balance rsz db address (PyStr s) = ([], Raise ValueError)).
Proof.
  intros Hs.
  assert (Hres : forall n, int16 s = Ok n ->
            Eth.eth_get_block_by_number eps db (PyStr s) full
            = Eth.eth_get_block_by_number eps db (PyInt n) full /\
            Eth._get_block_number_from_identifier db (PyStr s) = ([], Ok n)).
  { intros n Hn. split.
    - unfold Eth.eth_get_block_by_number at 1. rewrite Hs, Hn.
      rewrite !bind_lift_Ok, bind_ret_l.
      unfold Eth.eth_get_block_by_number. now rewrite bind_ret_l.
    - unfold Eth._get_block_number_from_identifier.
      rewrite py_eq_neq, Hs, Hn; [reflexivity|].
      intros [= ->]. discriminate Hs. }
  destruct (is_hex_cases s Hs) as [[Hall Hne]|(c & r & -> & Hx & Hr)].
  - left. exists (hex_value s). split; [now apply hex_value_from_nonneg|].
    apply Hres. now apply int16_all_hex.
  - destruct r as [|c' r'].
    + right. apply is_x_cases in Hx as [->| ->]; repeat split; auto.
    + left. exists (hex_value (String c' r')).
      split; [now apply hex_value_from_nonneg|].
      apply Hres. now rewrite (int16_prefixed _ _ Hx Hr).
Qed.

Lemma hex_identifier_resolution_witness :
  is_hex "1f" = true /\
  ((exists n, 0 <= n /\
     Eth.eth_get_block_by_number scenario_epoch scenario_db (PyStr "1f") false
     = Eth.eth_get_block_by_number scenario_epoch scenario_db (PyInt n) false /\
     Eth._get_block_number_from_identifier scenario_db (PyStr "1f") = ([], Ok n)) \/
   (("1f" = "0x" \/ "1f" = "0X") /\
    Eth.eth_get_block_by_number scenario_epoch scenario_db (PyStr "1f") false
    = ([], Raise ValueError) /\
    Eth.get_balance no_reals scenario_db "0xabc" (PyStr "1f")
    = ([], Raise ValueError))).
Proof.
  split; [reflexivity|].
  apply (hex_identifier_resolution scenario_epoch no_reals scenario_db "0xabc"
           false "1f").
  reflexivity.
Defined.

(** ** What a lookup by number returns *)

Lemma where_id_some n t r : where_id n t = Some r -> In r t /\ id r = n.
Proof.
  unfold where_id. intros H. apply List.find_some in H as [Hin Heq].
  split; [assumption | now apply Z.eqb_eq].
Qed.

(** The record returned for a stored hash that holds no ["0x"], when hashes
    are pairwise distinct, is shaped from the row of that hash. *)
Lemma get_block_by_hash_stored eps db r full b :
  List.NoDup (List.map block_hash (blockchain db)) ->
  In r (blockchain db) ->
  contains "0x" (block_hash r) = false ->
  outcome (Eth.get_block_by_hash eps db (PyStr (block_hash r)) full) = Ok (Some b) ->
  shape eps r = Ok (Some b).
Proof.
  intros Hnd Hin Hc. destruct (block_hash r) as [|c s] eqn:Eh; [discriminate|].
  rewrite get_block_by_hash_str, (replace_0x_absent _ Hc), <- Eh.
  now rewrite (where_block_hash_unique _ _ Hnd Hin).
Qed.

(** X6.  When the stored hashes are pairwise distinct and none holds the
    text ["0x"], a record that [eth_get_block_by_number] returns for the
    integer [n] is the one of storage key [n + 1]: its ["number"] is [n]
    and its ["hash"] is the decoded [block_hash] of that row. *)
Theorem eth_get_block_by_number_sound eps (db : Store) (n : Z) (full : bool)
        (b : BlockData) :
  List.NoDup (List.map block_hash (blockchain db)) ->
  hashes_unprefixed db ->
  outcome (Eth.eth_get_block_by_number eps db (PyInt n) full) = Ok (Some b) ->
  b !! "number" = Some (FInt n) /\
  exists r, In r (blockchain db) /\ id r = n + 1 /\
            b !! "hash" = FBytes <$> fromhex (block_hash r).
Proof.
  intros Hnd Hun. rewrite eth_get_block_by_number_int, get_block_hash_by_number_int.
  destruct (int64 (n + 1)); [|discriminate].
  destruct (where_id (n + 1) (blockchain db)) as [r|] eqn:E; [|discriminate].
  apply where_id_some in E as [Hin Hid]. unfold outcome. cbn [bind snd].
  intros H. apply (get_block_by_hash_stored _ _ _ _ _ Hnd Hin (Hun r Hin)) in H.
  apply shape_inv in H as (t & h & _ & Hh & Hcase).
  assert (Hb : b !! "number" = Some (FInt (id r - 1)) /\ b !! "hash" = Some (FBytes h)).
  { destruct Hcase as [[_ ->]|[_ (p & _ & ->)]];
      now rewrite block_fields_number, block_fields_hash. }
  destruct Hb as [Hnum Hhash]. split.
  - rewrite Hnum. do 2 f_equal. lia.
  - exists r. rewrite Hhash, Hh. auto.
Qed.

Lemma eth_get_block_by_number_sound_witness :
  let b := block_fields 1 1010 [Byte.xbb] (Some [Byte.xaa]) in
  b !! "number" = Some (FInt 1) /\
  exists r, In r (blockchain scenario_db) /\ id r = 1 + 1 /\
            b !! "hash" = FBytes <$> fromhex (block_hash r).
Proof.
  intros b.
  apply (eth_get_block_by_number_sound scenario_epoch scenario_db 1 false b).
  - repeat constructor; cbn; intuition discriminate.
  - intros r [<-|[<-|[]]]; reflexivity.
  - reflexivity.
Defined.

(** X7.  Under the same conditions a record returned for ["latest"] carries
    the number that [block_number] returns. *)
Theorem latest_is_block_number eps (db : Store) (full : bool) (b : BlockData) :
  List.NoDup (List.map block_hash (blockchain db)) ->
  hashes_unprefixed db ->
  outcome (Eth.eth_get_block_by_number eps db (PyStr "latest") full) = Ok (Some b) ->
  exists n, outcome (Eth.block_number db) = Ok n /\ b !! "number" = Some (FInt n).
Proof.
  intros Hnd Hun. unfold Eth.eth_get_block_by_number.
  change (is_hex "latest") with false. cbv iota. rewrite bind_ret_l.
  unfold Eth._get_block_hash_by_number, Eth.block_number,
    select_last_hash, select_last_number.
  cbn [py_eq String.eqb Ascii.eqb Bool.eqb].
  destruct (blockchain db) as [|a t] eqn:Et; [discriminate|].
  destruct (order_by_id_desc_limit_1_spec (a :: t) ltac:(discriminate))
    as (r & Hr & Hin & _).
  rewrite Hr. cbn [fmap option_fmap option_map]. unfold outcome.
  cbn [bind execute fst snd]. rewrite <- Et in Hin, Hnd.
  intros H. apply (get_block_by_hash_stored _ _ _ _ _ Hnd Hin (Hun r Hin)) in H.
  apply shape_inv in H as (ts & h & _ & _ & Hcase).
  exists (id r - 1). split; [reflexivity|].
  destruct Hcase as [[_ ->]|[_ (p & _ & ->)]]; now rewrite block_fields_number.
Qed.

Lemma latest_is_block_number_witness :
  exists n, outcome (Eth.block_number scenario_db) = Ok n /\
            block_fields 1 1010 [Byte.xbb] (Some [Byte.xaa]) !! "number"
            = Some (FInt n).
Proof.
  apply (latest_is_block_number scenario_epoch scenario_db false).
  - repeat constructor; cbn; intuition discriminate.
  - intros r [<-|[<-|[]]]; reflexivity.
  - reflexivity.
Defined.

(** X8.  With unique storage keys, asking for ["latest"] gives the result of
    asking for the number that [block_number] returns, on every store (on
    the empty one both are absent). *)
Theorem latest_is_lookup_of_block_number eps (db : Store) (full : bool) :
  List.NoDup (List.map id (blockchain db)) ->
  outcome (Eth.eth_get_block_by_number eps db (PyStr "latest") full)
  = outcome (n <- Eth.block_number db ;;
             Eth.eth_get_block_by_number eps db (PyInt n) full).
Proof.
  intros Hid. unfold Eth.eth_get_block_by_number at 1.
  change (is_hex "latest") with false. cbv iota. rewrite bind_ret_l.
  unfold Eth._get_block_hash_by_number, Eth.block_number,
    select_last_hash, select_last_number.
  cbn [py_eq String.eqb Ascii.eqb Bool.eqb].
  destruct (order_by_id_desc_limit_1 (blockchain db)) as [r|] eqn:Er.
  - assert (Hin : In r (blockchain db)).
    { destruct (blockchain db) as [|a t] eqn:Et; [discriminate|].
      destruct (order_by_id_desc_limit_1_spec (a :: t) ltac:(discriminate))
        as (r' & Hr' & Hin' & _). congruence. }
    cbn [fmap option_fmap option_map]. unfold outcome. cbn [bind execute execute_result params_fit ret fst snd].
    rewrite eth_get_block_by_number_int, get_block_hash_by_number_int.
    replace (id r - 1 + 1) with (id r) by lia.
    rewrite (rowid_int64 _ (id_rowid r)), (where_id_unique _ _ Hid Hin). reflexivity.
  - cbn [fmap option_fmap option_map]. unfold outcome. cbn [bind execute execute_result params_fit ret fst snd].
    rewrite eth_get_block_by_number_int, get_block_hash_by_number_int.
    destruct (blockchain db) as [|a t] eqn:Et; [reflexivity|].
    destruct (order_by_id_desc_limit_1_spec (a :: t) ltac:(discriminate))
      as (r' & Hr' & _). congruence.
Qed.

Lemma latest_is_lookup_of_block_number_witness :
  outcome (Eth.eth_get_block_by_number scenario_epoch scenario_db (PyStr "latest") false)
  = outcome (n <- Eth.block_number scenario_db ;;
             Eth.eth_get_block_by_number scenario_epoch scenario_db (PyInt n) false).
Proof.
  apply latest_is_lookup_of_block_number.
  repeat constructor; cbn; intuition discriminate.
Defined.

(** ** The encoding of a balance *)






(** The sign that [hex] prints for a negative number is not hex text. *)
Lemma HexBytes_hex_negative n : n < 0 -> HexBytes (hex n) = Raise ValueError.
Proof.
  intros Hn. unfold hex. apply Z.ltb_lt in Hn. rewrite Hn.
  change ("-0x" +:+ hex_nat (- n))
    with (String "-" (String "0" (String "x" (hex_nat (- n))))).
  unfold HexBytes.
  change (strip_0x (String "-" (String "0" (String "x" (hex_nat (- n))))))
    with (@None string).
  cbv iota. destruct (Nat.odd _); reflexivity.
Qed.



(** X10.  Under the same conditions a selection whose amounts sum below
    zero has no encoding: [get_balance] raises [ValueError]. *)
Theorem get_balance_negative_sum rsz (db : Store) (address : string) (v : PyVal)
        (t : list Stmt) (n : Z) :
  Eth._get_block_number_from_identifier db v = (t, Ok n) ->
  int64 n = true ->
  selection_fits db address n = true ->
  amount_sum (selected db address n) < 0 ->
  Eth.get_balance rsz db address v
  = (t ++ [SelectBalance address n], Raise ValueError).
Proof.
  intros Hv Hn Hfit Hsum.
  pose proof (get_balance_resolved rsz db address _ _ _ Hv Hn Hfit) as Ho.
  pose proof (get_balance_trace rsz db address _ _ _ Hv) as Ht.
  rewrite HexBytes_hex_negative in Ho by (rewrite scaled_sum_amount_sum; lia).
  destruct (Eth.get_balance rsz db address v) as [t' o].
  unfold outcome, trace in *. cbn [fst snd] in *. now subst.
Qed.

Lemma get_balance_negative_sum_witness :
  Eth.get_balance no_reals (mkStore [] [ mkBalance "0xabc" (-5) 1 1 ]) "0xabc"
    (PyStr "0x1")
  = ([] ++ [SelectBalance "0xabc" 1], Raise ValueError).
Proof.
  apply (get_balance_negative_sum no_reals
           (mkStore [] [ mkBalance "0xabc" (-5) 1 1 ]) "0xabc" (PyStr "0x1") [] 1).
  - reflexivity.
  - reflexivity.
  - reflexivity.
  - reflexivity.
Defined.

(** ** What a balance depends on *)

Lemma scaled_sum_filter_Permutation (p : BalanceRow -> bool) l l' :
  Permutation l l' ->
  scaled_sum (List.filter p l) = scaled_sum (List.filter p l').
Proof.
  unfold scaled_sum. induction 1 as [|x l l' _ IH|x y l|l l' l'' _ IH1 _ IH2].
  - reflexivity.
  - cbn [List.filter]. destruct (p x); cbn [List.map fold_right]; now rewrite IH.
  - cbn [List.filter]. destruct (p x), (p y); cbn [List.map fold_right]; lia.
  - now rewrite IH1.
Qed.

Lemma filter_none {A : Type} (p : A -> bool) (l : list A) :
  (forall x, In x l -> p x = false) -> List.filter p l = [].
Proof.
  induction l as [|a l IH]; [reflexivity|]. intros H. cbn [List.filter].
  rewrite (H a (or_introl eq_refl)). apply IH. intros x Hx. apply H. now right.
Qed.

Lemma volume_nonneg l : 0 <= volume l.
Proof. unfold volume. induction l as [|e l IH]; cbn [fold_right]; lia. Qed.

Lemma volume_filter (p : BalanceRow -> bool) l : volume (List.filter p l) <= volume l.
Proof.
  unfold volume. induction l as [|e l IH]; [reflexivity|]. cbn [List.filter].
  destruct (p e); cbn [fold_right]; lia.
Qed.

Lemma volume_Permutation l l' : Permutation l l' -> volume l = volume l'.
Proof.
  unfold volume. induction 1 as [|x l l' _ IH|x y l|l l' l'' _ IH1 _ IH2];
    cbn [fold_right]; lia.
Qed.

Lemma int64_abs x : Z.abs x < 2 ^ 63 -> int64 x = true.
Proof.
  intros H. unfold int64. apply andb_true_iff. split.
  - apply Z.leb_le. lia.
  - apply Z.ltb_lt. lia.
Qed.

(** A table whose volume fits 64 bits has no running sum outside them, in
    any order and under any selection. *)
Lemma sums_fit_volume l : forall acc,
  Z.abs acc + volume l < 2 ^ 63 -> sums_fit acc (scaled l) = true.
Proof.
  induction l as [|e l IH]; intros acc H; [reflexivity|].
  cbn [scaled List.map sums_fit].
  change (volume (e :: l)) with (Z.abs (amount e * 10) + volume l) in H.
  pose proof (volume_nonneg l).
  rewrite !int64_abs by lia. cbn [andb]. apply IH. lia.
Qed.

Lemma selection_fits_volume db address n :
  volume (account_balances db) < 2 ^ 63 -> selection_fits db address n = true.
Proof.
  intros H. unfold selection_fits, selected. apply sums_fit_volume.
  pose proof (volume_filter (balance_where address n) (account_balances db)).
  cbn [Z.abs]. lia.
Qed.

Lemma get_block_number_from_identifier_blockchain db db' v :
  blockchain db = blockchain db' ->
  Eth._get_block_number_from_identifier db v
  = Eth._get_block_number_from_identifier db' v.
Proof.
  intros H. unfold Eth._get_block_number_from_identifier, Eth.block_number,
    select_last_number. now rewrite H.
Qed.

(** The statement depends on the table through the selected rows only. *)
Lemma balance_statement_selected rsz db db' address n :
  selected db address n = selected db' address n ->
  balance_statement rsz db address n = balance_statement rsz db' address n.
Proof.
  intros H. unfold balance_statement, select_balance.
  fold (selected db address n). fold (selected db' address n). now rewrite H.
Qed.

(** X11.  When the volume of [account_balances] (the total of the absolute
    scaled amounts) fits 64 bits, so that no running sum can leave them,
    the balance does not depend on the order in which the engine scans the
    table: two stores with the same blockchain table and the same balance
    rows in any order answer every [get_balance] call alike. *)
Theorem get_balance_scan_order rsz (db db' : Store) (address : string) (v : PyVal) :
  blockchain db = blockchain db' ->
  Permutation (account_balances db) (account_balances db') ->
  volume (account_balances db) < 2 ^ 63 ->
  Eth.get_balance rsz db address v = Eth.get_balance rsz db' address v.
Proof.
  intros Hb Hp Hvol. rewrite !get_balance_bind.
  rewrite <- (get_block_number_from_identifier_blockchain db db' v Hb).
  destruct (Eth._get_block_number_from_identifier db v) as [t [n|e]]; [|reflexivity].
  cbn [bind]. destruct (int64 n) eqn:Hn.
  - assert (Hvol' : volume (account_balances db') < 2 ^ 63)
      by now rewrite <- (volume_Permutation _ _ Hp).
    rewrite (balance_statement_fits rsz db _ _ Hn (selection_fits_volume _ _ _ Hvol)).
    rewrite (balance_statement_fits rsz db' _ _ Hn (selection_fits_volume _ _ _ Hvol')).
    unfold selected. now rewrite (scaled_sum_filter_Permutation _ _ _ Hp).
  - now rewrite !balance_statement_overflow.
Qed.

Lemma get_balance_scan_order_witness :
  Eth.get_balance no_reals scenario_db "0xabc" (PyStr "latest")
  = Eth.get_balance no_reals
      (mkStore (blockchain scenario_db)
               [ mkBalance "0xabc" 7 2 1; mkBalance "0xabc" 5 1 1 ])
      "0xabc" (PyStr "latest").
Proof.
  apply get_balance_scan_order.
  - reflexivity.
  - apply perm_swap.
  - reflexivity.
Defined.

(** X12.  Rows of other accounts and rows of another currency never change
    an account's balance: adding them to the table leaves every
    [get_balance] call for that account as it was. *)
Theorem get_balance_other_rows rsz (db : Store) (extra : list BalanceRow)
        (address : string) (v : PyVal) :
  (forall e, In e extra -> account e <> address \/ currency_type e <> 1) ->
  Eth.get_balance rsz (mkStore (blockchain db) (account_balances db ++ extra))
    address v
  = Eth.get_balance rsz db address v.
Proof.
  intros Hex. rewrite !get_balance_bind.
  rewrite (get_block_number_from_identifier_blockchain
             (mkStore (blockchain db) (account_balances db ++ extra)) db v eq_refl).
  destruct (Eth._get_block_number_from_identifier db v) as [t [n|e]]; [|reflexivity].
  cbn [bind]. rewrite (balance_statement_selected rsz _ db address n); [reflexivity|].
  unfold selected. cbn [account_balances]. rewrite List.filter_app.
  rewrite (filter_none _ extra), app_nil_r; [reflexivity|].
  intros e He. unfold balance_where. destruct (Hex e He) as [Ha|Hc].
  - apply String.eqb_neq in Ha. now rewrite Ha.
  - apply Z.eqb_neq in Hc. rewrite Hc. now rewrite andb_false_r.
Qed.

Lemma get_balance_other_rows_witness :
  Eth.get_balance no_reals
    (mkStore (blockchain scenario_db)
             (account_balances scenario_db
              ++ [ mkBalance "0xdef" 9 1 1; mkBalance "0xabc" 9 1 2 ]))
    "0xabc" (PyStr "latest")
  = Eth.get_balance no_reals scenario_db "0xabc" (PyStr "latest").
Proof.
  apply (get_balance_other_rows no_reals scenario_db
           [ mkBalance "0xdef" 9 1 1; mkBalance "0xabc" 9 1 2 ] "0xabc").
  intros e [<-|[<-|[]]]; [left | right]; discriminate.
Defined.

(** X13.  Rows recorded at a block after the resolved bound do not count:
    the balance as of [n] is unchanged by any row with [block_id > n]. *)
Theorem get_balance_later_rows rsz (db : Store) (extra : list BalanceRow)
        (address : string) (v : PyVal) (t : list Stmt) (n : Z) :
  Eth._get_block_number_from_identifier db v = (t, Ok n) ->
  (forall e, In e extra -> n < block_id e) ->
  Eth.get_balance rsz (mkStore (blockchain db) (account_balances db ++ extra))
    address v
  = Eth.get_balance rsz db address v.
Proof.
  intros Hv Hex. rewrite !get_balance_bind.
  rewrite (get_block_number_from_identifier_blockchain
             (mkStore (blockchain db) (account_balances db ++ extra)) db v eq_refl).
  rewrite Hv. cbn [bind].
  rewrite (balance_statement_selected rsz _ db address n); [reflexivity|].
  unfold selected. cbn [account_balances]. rewrite List.filter_app.
  rewrite (filter_none _ extra), app_nil_r; [reflexivity|].
  intros e He. unfold balance_where. pose proof (Hex e He) as Hlt.
  apply Z.leb_gt in Hlt. rewrite Hlt. now rewrite andb_false_r.
Qed.

Lemma get_balance_later_rows_witness :
  Eth.get_balance no_reals
    (mkStore (blockchain scenario_db)
             (account_balances scenario_db ++ [ mkBalance "0xabc" 9 3 1 ]))
    "0xabc" (PyStr "0x2")
  = Eth.get_balance no_reals scenario_db "0xabc" (PyStr "0x2").
Proof.
  apply (get_balance_later_rows no_reals scenario_db [ mkBalance "0xabc" 9 3 1 ]
           "0xabc" (PyStr "0x2") [] 2).
  - reflexivity.
  - intros e [<-|[]]. reflexivity.
Defined.

(** ** The head *)

Lemma block_number_outcome db :
  outcome (Eth.block_number db)
  = Ok match order_by_id_desc_limit_1 (blockchain db) with
       | Some r => id r - 1
       | None => 0
       end.
Proof.
  unfold Eth.block_number, select_last_number.
  destruct (order_by_id_desc_limit_1 (blockchain db)); reflexivity.
Qed.

Lemma order_by_id_desc_limit_1_in t r :
  order_by_id_desc_limit_1 t = Some r ->
  In r t /\ forall r', In r' t -> id r' <= id r.
Proof.
  intros H. destruct t as [|a t]; [discriminate|].
  destruct (order_by_id_desc_limit_1_spec (a :: t) ltac:(discriminate))
    as (r' & Hr' & Hin & Hmax).
  rewrite H in Hr'. injection Hr' as <-. auto.
Qed.

Lemma order_by_id_desc_limit_1_none t :
  order_by_id_desc_limit_1 t = None -> t = [].
Proof.
  destruct t as [|a t]; [reflexivity|]. intros H.
  destruct (order_by_id_desc_limit_1_spec (a :: t) ltac:(discriminate))
    as (r & Hr & _). congruence.
Qed.

(** X14.  [block_number] does not depend on the scan order of the
    blockchain table. *)
Theorem block_number_scan_order (db db' : Store) :
  Permutation (blockchain db) (blockchain db') ->
  Eth.block_number db = Eth.block_number db'.
Proof.
  intros Hp.
  assert (Ho : outcome (Eth.block_number db) = outcome (Eth.block_number db')).
  { rewrite !block_number_outcome. f_equal.
    destruct (order_by_id_desc_limit_1 (blockchain db)) as [r|] eqn:E,
             (order_by_id_desc_limit_1 (blockchain db')) as [r'|] eqn:E'.
    - apply order_by_id_desc_limit_1_in in E as [Hin Hmax].
      apply order_by_id_desc_limit_1_in in E' as [Hin' Hmax'].
      pose proof (Hmax r' (Permutation_in _ (Permutation_sym Hp) Hin')).
      pose proof (Hmax' r (Permutation_in _ Hp Hin)). lia.
    - apply order_by_id_desc_limit_1_in in E as [Hin _].
      apply (Permutation_in _ Hp) in Hin.
      apply order_by_id_desc_limit_1_none in E'. rewrite E' in Hin. destruct Hin.
    - apply order_by_id_desc_limit_1_in in E' as [Hin' _].
      apply (Permutation_in _ (Permutation_sym Hp)) in Hin'.
      apply order_by_id_desc_limit_1_none in E. rewrite E in Hin'. destruct Hin'.
    - reflexivity. }
  unfold Eth.block_number in *. unfold outcome in Ho.
  destruct (select_last_number db), (select_last_number db');
    cbn in Ho |- *; congruence.
Qed.

Lemma block_number_scan_order_witness :
  Eth.block_number scenario_db
  = Eth.block_number
      (mkStore [ mkBlock 2 "1970-01-01 00:16:50" "bb" "aa" "[]";
                 mkBlock 1 "1970-01-01 00:16:40" "aa" "genesis" "[]" ] []).
Proof.
  apply block_number_scan_order. apply perm_swap.
Defined.

(** X15.  When storage keys start at 1, [get_balance] on an identifier that
    is neither ["earliest"] nor hex text (the tag ["latest"], an integer,
    [None]) returns what it returns on the hex text of the number
    [block_number] gives. *)
Theorem get_balance_at_head rsz (db : Store) (address : string) (v : PyVal) :
  keys_from_one db ->
  v <> PyStr "earliest" ->
  (forall s, v = PyStr s -> is_hex s = false) ->
  outcome (Eth.get_balance rsz db address v)
  = outcome (n <- Eth.block_number db ;;
             Eth.get_balance rsz db address (PyStr (hex n))).
Proof.
  intros Hk Hv Hs.
  assert (Hres : Eth._get_block_number_from_identifier db v = Eth.block_number db).
  { unfold Eth._get_block_number_from_identifier.
    rewrite (py_eq_neq _ _ Hv). destruct v as [|n|s]; try reflexivity.
    now rewrite (Hs s eq_refl). }
  pose proof (block_number_outcome db) as Hn.
  set (n := match order_by_id_desc_limit_1 (blockchain db) with
            | Some r => id r - 1 | None => 0 end) in Hn.
  assert (H0 : 0 <= n).
  { subst n. destruct (order_by_id_desc_limit_1 (blockchain db)) as [r|] eqn:E; [|lia].
    apply order_by_id_desc_limit_1_in in E as [Hin _]. specialize (Hk r Hin). lia. }
  rewrite get_balance_bind, Hres.
  destruct (Eth.block_number db) as [t o] eqn:Eb. unfold outcome in Hn.
  cbn [snd] in Hn. subst o.
  unfold outcome. cbn [bind snd]. now rewrite (get_balance_hex_statement _ _ _ _ H0).
Qed.

Lemma get_balance_at_head_witness :
  outcome (Eth.get_balance no_reals scenario_db "0xabc" (PyInt 0))
  = outcome (n <- Eth.block_number scenario_db ;;
             Eth.get_balance no_reals scenario_db "0xabc" (PyStr (hex n))).
Proof.
  apply get_balance_at_head.
  - intros r [<-|[<-|[]]]; cbn; lia.
  - discriminate.
  - intros s [=].
Defined.

(** ** The record returned by hash *)

(** X16.  A record that [get_block_by_hash] returns always has the keys
    ["number"], ["timestamp"] and ["hash"], and no key other than these and
    ["parentHash"]: the stored [records_json] is never handed out. *)
Theorem get_block_by_hash_keys eps (db : Store) (h : PyVal) (full : bool)
        (b : BlockData) :
  outcome (Eth.get_block_by_hash eps db h full) = Ok (Some b) ->
  is_Some (b !! "number") /\ is_Some (b !! "timestamp") /\ is_Some (b !! "hash") /\
  forall k : string, ~ In k block_keys -> b !! k = None.
Proof.
  intros H. apply get_block_by_hash_inv in H as (s & r & _ & _ & _ & Hs).
  apply shape_inv in Hs as (t & hb & _ & _ & Hcase).
  assert (Hb : exists p, b = block_fields (id r - 1) t hb p).
  { destruct Hcase as [[_ ->]|[_ (p & _ & ->)]]; eauto. }
  destruct Hb as [p ->].
  rewrite block_fields_number, block_fields_timestamp, block_fields_hash.
  repeat (split; [eauto|]).
  intros k Hk. unfold block_keys in Hk. cbn [In] in Hk.
  unfold block_fields. destruct p;
    rewrite ?lookup_insert_ne by (intros <-; tauto); apply lookup_empty.
Qed.

Lemma get_block_by_hash_keys_witness :
  let b := block_fields 1 1010 [Byte.xbb] (Some [Byte.xaa]) in
  is_Some (b !! "number") /\ is_Some (b !! "timestamp") /\ is_Some (b !! "hash") /\
  forall k : string, ~ In k block_keys -> b !! k = None.
Proof.
  intros b.
  apply (get_block_by_hash_keys scenario_epoch scenario_db (PyStr "0xbb") true b).
  reflexivity.
Defined.

(** X17.  The record returned for a string carries the hash that was asked
    for: its ["hash"] is the decoding of the argument without its ["0x"]. *)
Theorem get_block_by_hash_returns_hash eps (db : Store) (s : string)
        (full : bool) (b : BlockData) :
  outcome (Eth.get_block_by_hash eps db (PyStr s) full) = Ok (Some b) ->
  exists bs, fromhex (replace "0x" "" s) = Some bs /\
             b !! "hash" = Some (FBytes bs).
Proof.
  intros H. apply get_block_by_hash_inv in H as (s' & r & [= <-] & _ & Hh & Hs).
  apply shape_inv in Hs as (t & hb & _ & Hhb & Hcase).
  exists hb. rewrite <- Hh. split; [assumption|].
  destruct Hcase as [[_ ->]|[_ (p & _ & ->)]]; apply block_fields_hash.
Qed.

Lemma get_block_by_hash_returns_hash_witness :
  exists bs, fromhex (replace "0x" "" "0xbb") = Some bs /\
             block_fields 1 1010 [Byte.xbb] (Some [Byte.xaa]) !! "hash"
             = Some (FBytes bs).
Proof.
  apply (get_block_by_hash_returns_hash scenario_epoch scenario_db "0xbb" true).
  reflexivity.
Defined.

(** X18.  A truthy argument that is not a string has no [replace]:
    [get_block_by_hash] raises [AttributeError] on every non-zero integer,
    before any statement is sent. *)
Theorem get_block_by_hash_attribute_error eps (db : Store) (n : Z) (full : bool) :
  n <> 0 ->
  Eth.get_block_by_hash eps db (PyInt n) full = ([], Raise AttributeError).
Proof.
  intros Hn. unfold Eth.get_block_by_hash. cbn [truthy].
  apply Z.eqb_neq in Hn. rewrite Hn. reflexivity.
Qed.

Lemma get_block_by_hash_attribute_error_witness :
  Eth.get_block_by_hash scenario_epoch scenario_db (PyInt 1) true
  = ([], Raise AttributeError).
Proof. apply get_block_by_hash_attribute_error. discriminate. Defined.

(** ** Scan order of the blockchain table *)

Lemma NoDup_map_In_inj {A K : Type} (f : A -> K) (l : list A) x y :
  List.NoDup (List.map f l) -> In x l -> In y l -> f x = f y -> x = y.
Proof.
  induction l as [|a l IH]; [intros _ []|].
  cbn [List.map]. intros Hnd Hx Hy Hf.
  inversion Hnd as [|? ? Hnotin Hnd']; subst.
  destruct Hx as [->|Hx], Hy as [->|Hy].
  - reflexivity.
  - exfalso. apply Hnotin. rewrite Hf. now apply in_map.
  - exfalso. apply Hnotin. rewrite <- Hf. now apply in_map.
  - now apply IH.
Qed.

Lemma find_key_Permutation {A K : Type} (f : A -> K) (eqb : K -> K -> bool)
      (Heqb : forall a b, eqb a b = true <-> a = b) (l l' : list A) (k : K) :
  List.NoDup (List.map f l) -> Permutation l l' ->
  List.find (fun x => eqb (f x) k) l = List.find (fun x => eqb (f x) k) l'.
Proof.
  intros Hnd Hp.
  assert (Hnd' : List.NoDup (List.map f l')).
  { eapply Permutation_NoDup; [|exact Hnd]. now apply Permutation_map. }
  destruct (List.find (fun x => eqb (f x) k) l) as [r|] eqn:E.
  - apply List.find_some in E as [Hin Hk]. apply Heqb in Hk. subst k.
    symmetry. apply (find_unique f eqb Heqb); [assumption|].
    now apply (Permutation_in _ Hp).
  - symmetry. apply find_absent. intros x Hx.
    apply (List.find_none _ _ E). now apply (Permutation_in _ (Permutation_sym Hp)).
Qed.

Lemma get_block_by_hash_Permutation eps db db' h full :
  List.NoDup (List.map block_hash (blockchain db)) ->
  Permutation (blockchain db) (blockchain db') ->
  Eth.get_block_by_hash eps db h full = Eth.get_block_by_hash eps db' h full.
Proof.
  intros Hnd Hp. destruct h as [|n|[|c s]]; try reflexivity.
  rewrite !get_block_by_hash_str. unfold where_block_hash.
  now rewrite (find_key_Permutation block_hash String.eqb String.eqb_eq _ _ _ Hnd Hp).
Qed.

(** X19.  With pairwise distinct hashes, [get_block_by_hash] does not depend
    on the order in which the engine scans the blockchain table. *)
Theorem get_block_by_hash_scan_order eps (db db' : Store) (h : PyVal) (full : bool) :
  List.NoDup (List.map block_hash (blockchain db)) ->
  Permutation (blockchain db) (blockchain db') ->
  Eth.get_block_by_hash eps db h full = Eth.get_block_by_hash eps db' h full.
Proof. apply get_block_by_hash_Permutation. Qed.

Lemma get_block_by_hash_scan_order_witness :
  Eth.get_block_by_hash scenario_epoch scenario_db (PyStr "0xbb") true
  = Eth.get_block_by_hash scenario_epoch
      (mkStore [ mkBlock 2 "1970-01-01 00:16:50" "bb" "aa" "[]";
                 mkBlock 1 "1970-01-01 00:16:40" "aa" "genesis" "[]" ] [])
      (PyStr "0xbb") true.
Proof.
  apply get_block_by_hash_scan_order.
  - repeat constructor; cbn; intuition discriminate.
  - apply perm_swap.
Defined.

Lemma order_by_id_desc_limit_1_Permutation t t' :
  List.NoDup (List.map id t) -> Permutation t t' ->
  order_by_id_desc_limit_1 t = order_by_id_desc_limit_1 t'.
Proof.
  intros Hnd Hp.
  destruct (order_by_id_desc_limit_1 t) as [r|] eqn:E,
           (order_by_id_desc_limit_1 t') as [r'|] eqn:E'.
  - apply order_by_id_desc_limit_1_in in E as [Hin Hmax].
    apply order_by_id_desc_limit_1_in in E' as [Hin' Hmax'].
    apply (Permutation_in _ (Permutation_sym Hp)) in Hin'.
    f_equal. apply (NoDup_map_In_inj id t); try assumption.
    pose proof (Hmax r' Hin'). pose proof (Hmax' r (Permutation_in _ Hp Hin)). lia.
  - apply order_by_id_desc_limit_1_in in E as [Hin _].
    apply (Permutation_in _ Hp) in Hin.
    apply order_by_id_desc_limit_1_none in E'. rewrite E' in Hin. destruct Hin.
  - apply order_by_id_desc_limit_1_in in E' as [Hin' _].
    apply (Permutation_in _ (Permutation_sym Hp)) in Hin'.
    apply order_by_id_desc_limit_1_none in E. rewrite E in Hin'. destruct Hin'.
  - reflexivity.
Qed.

(** X20.  With unique storage keys and pairwise distinct hashes,
    [eth_get_block_by_number] does not depend on the scan order either,
    whatever the identifier. *)
Theorem eth_get_block_by_number_scan_order eps (db db' : Store) (v : PyVal)
        (full : bool) :
  List.NoDup (List.map id (blockchain db)) ->
  List.NoDup (List.map block_hash (blockchain db)) ->
  Permutation (blockchain db) (blockchain db') ->
  Eth.eth_get_block_by_number eps db v full
  = Eth.eth_get_block_by_number eps db' v full.
Proof.
  intros Hid Hh Hp.
  assert (Hhash : forall w, Eth._get_block_hash_by_number db w
                            = Eth._get_block_hash_by_number db' w).
  { intros w. unfold Eth._get_block_hash_by_number, select_last_hash,
      select_hash_by_id, where_id.
    rewrite (order_by_id_desc_limit_1_Permutation _ _ Hid Hp).
    destruct (py_eq _ (PyStr "latest")); [reflexivity|].
    destruct (py_add1 _) as [n|e]; [|reflexivity].
    rewrite !bind_lift_Ok.
    now rewrite (find_key_Permutation id Z.eqb Z.eqb_eq _ _ n Hid Hp). }
  unfold Eth.eth_get_block_by_number.
  destruct (match v with
            | PyStr s => if is_hex s then n <- lift (int16 s) ;; ret (PyInt n)
                         else ret v
            | _ => ret v
            end) as [t [w|e]]; [|reflexivity].
  cbn [bind]. rewrite Hhash.
  destruct (Eth._get_block_hash_by_number db' w) as [t' [h|e]]; [|reflexivity].
  cbn [bind fst snd]. now rewrite (get_block_by_hash_Permutation eps db db' h full Hh Hp).
Qed.

Lemma eth_get_block_by_number_scan_order_witness :
  Eth.eth_get_block_by_number scenario_epoch scenario_db (PyStr "latest") false
  = Eth.eth_get_block_by_number scenario_epoch
      (mkStore [ mkBlock 2 "1970-01-01 00:16:50" "bb" "aa" "[]";
                 mkBlock 1 "1970-01-01 00:16:40" "aa" "genesis" "[]" ] [])
      (PyStr "latest") false.
Proof.
  apply eth_get_block_by_number_scan_order.
  - repeat constructor; cbn; intuition discriminate.
  - repeat constructor; cbn; intuition discriminate.
  - apply perm_swap.
Defined.

(** ** The transaction lookups *)

(** The transaction lookups are stubs that never consult the store:
    by hash and for a receipt the answer is absent for every argument, the
    count is 0, and the two lookups by index hand [None] to
    [get_block_by_hash] and so are absent as well, on every store. *)
Lemma transaction_lookups_stubbed eps (db : Store) :
  (forall tx_hash, Eth.get_transaction_by_hash tx_hash = ([], Ok None)) /\
  (forall tx_hash, Eth.get_transaction_receipt tx_hash = ([], Ok None)) /\
  (forall address v, Eth.get_transaction_count address v = ([], Ok 0)) /\
  (forall n i,
     Eth.get_transaction_by_block_number_and_index eps db n i = ([], Ok None)) /\
  (forall h i,
     Eth.get_transaction_by_block_hash_and_index eps db h i = ([], Ok None)).
Proof.
  repeat split.
  - intros tx. unfold Eth.get_transaction_by_hash. now destruct (truthy tx).
  - intros tx. unfold Eth.get_transaction_receipt. now destruct (truthy tx).
Qed.

(** ** The draft *)

(** X21.  The four methods of the draft [api.py] return, on every store and
    every argument, what their namesakes in [eth.py] return, and send the
    same statements. *)
Theorem draft_agrees eps (db : Store) :
  Api.block_number db = Eth.block_number db /\
  (forall h full,
     Api.get_block_by_hash eps db h full = Eth.get_block_by_hash eps db h full) /\
  (forall v, Api._get_block_hash_by_number db v = Eth._get_block_hash_by_number db v) /\
  (forall v full,
     Api.eth_get_block_by_number eps db v full
     = Eth.eth_get_block_by_number eps db v full).
Proof. repeat split. Qed.
